(** * A shallow embedding of the IDV-RouteMAP activity normalisation scripts

    The repository has two Python scripts:
    - [normalise_strava.py]: [normalize_sport], [parse_tcx], [parse_gpx],
      [parse_fit], [load_json_meta] and a module-level batch loop that writes
      [activity_index.json] and [segments.geojson];
    - [preprocess_tcx.py]: its own [parse_tcx] and a [main] batch loop.

    Modelling choices, shared by the whole file:
    - Python strings are Rocq [string]s (ASCII characters);
    - Python numbers are exact rationals [Q] (floats idealised as exact
      values; integers embedded), heart rates and other [int()] values [Z];
    - a Python dict is an association list with Python's insertion-order
      update semantics ([dset]); a JSON value is [jvalue];
    - an exception is the [Err] branch of the [result] monad;
    - XML documents and FIT streams are given already decoded into the
      element/message structure that the code navigates;
    - the text of an XML element is a [txt]: the text of an integer literal,
      of a non-integer decimal literal, or some other text (which [float()]
      and [int()] reject). *)

From Stdlib Require Import String Ascii List ZArith QArith Qround Lia Bool.
Import ListNotations.
Open Scope string_scope.

(* ------------------------------------------------------------------ *)
(** ** ASCII string operations of Python's [str] *)

Definition ascii_code (c : ascii) : nat := nat_of_ascii c.

Definition is_upper (c : ascii) : bool :=
  (65 <=? ascii_code c)%nat && (ascii_code c <=? 90)%nat.

Definition is_lower (c : ascii) : bool :=
  (97 <=? ascii_code c)%nat && (ascii_code c <=? 122)%nat.

(** For ASCII, Python's "cased" characters are exactly the letters. *)
Definition is_cased (c : ascii) : bool := is_upper c || is_lower c.

Definition char_lower (c : ascii) : ascii :=
  if is_upper c then ascii_of_nat (ascii_code c + 32) else c.

Definition char_upper (c : ascii) : ascii :=
  if is_lower c then ascii_of_nat (ascii_code c - 32) else c.

(** [str.isspace] on ASCII: \t \n \v \f \r, the separators \x1c-\x1f and
    the space. *)
Definition py_isspace (c : ascii) : bool :=
  let n := ascii_code c in
  ((9 <=? n)%nat && (n <=? 13)%nat) || ((28 <=? n)%nat && (n <=? 32)%nat).

Fixpoint py_lower (s : string) : string :=
  match s with
  | EmptyString => EmptyString
  | String c r => String (char_lower c) (py_lower r)
  end.

Fixpoint lstrip (s : string) : string :=
  match s with
  | EmptyString => EmptyString
  | String c r => if py_isspace c then lstrip r else s
  end.

Fixpoint rstrip (s : string) : string :=
  match s with
  | EmptyString => EmptyString
  | String c r =>
      match rstrip r with
      | EmptyString => if py_isspace c then EmptyString else String c EmptyString
      | r' => String c r'
      end
  end.

(** [str.strip()] *)
Definition py_strip (s : string) : string := rstrip (lstrip s).

(** [str.title()]: a cased character is upper-cased when the previous
    character is not cased, lower-cased otherwise. *)
Fixpoint title_aux (prev_cased : bool) (s : string) : string :=
  match s with
  | EmptyString => EmptyString
  | String c r =>
      String (if is_cased c then (if prev_cased then char_lower c else char_upper c) else c)
             (title_aux (is_cased c) r)
  end.

Definition py_title (s : string) : string := title_aux false s.

Fixpoint all_nonspace (s : string) : bool :=
  match s with
  | EmptyString => true
  | String c r => negb (py_isspace c) && all_nonspace r
  end.

Definition str_in (s : string) (l : list string) : bool := existsb (String.eqb s) l.

(* ------------------------------------------------------------------ *)
(** ** [normalize_sport] (normalise_strava.py, lines 14-18)

<<
def normalize_sport(raw_sport):
    s = (raw_sport or "").strip().lower()
    if s in ("cycling", "bike", "biking"):   return "Biking"
    if s in ("running",):                       return "Running"
    return raw_sport.title() if raw_sport else "Unknown"
>>
    [raw_sport] is [None] or a [str]. *)

Definition bike_words : list string := ["cycling"; "bike"; "biking"].
Definition run_words : list string := ["running"].

Definition normalize_sport (raw_sport : option string) : string :=
  let r := match raw_sport with Some r => r | None => "" end in
  let s := py_lower (py_strip r) in
  if str_in s bike_words then "Biking"
  else if str_in s run_words then "Running"
  else if negb (String.eqb r "") then py_title r else "Unknown".

(* ------------------------------------------------------------------ *)
(** ** Exceptions, numbers, JSON values and dicts *)

(** A computation that may raise: [Err] carries the exception text. *)
Inductive result (A : Type) : Type :=
| Ok (a : A)
| Err (e : string).
Arguments Ok {A} a.
Arguments Err {A} e.

Definition bind {A B} (c : result A) (k : A -> result B) : result B :=
  match c with Ok a => k a | Err e => Err e end.

Notation "x <- c ;; k" := (bind c (fun x => k))
  (at level 61, c at next level, right associativity).

Fixpoint mapM {A B} (f : A -> result B) (l : list A) : result (list B) :=
  match l with
  | [] => Ok []
  | a :: r => b <- f a ;; bs <- mapM f r ;; Ok (b :: bs)
  end.

(** Python's built-in [sum] over numbers. *)
Definition qsum (l : list Q) : Q := fold_right Qplus 0 l.
Definition zsum (l : list Z) : Z := fold_right Z.add 0%Z l.

(** Python's [max] over a non-empty list (the first maximum wins). *)
Definition zmax_list (z0 : Z) (l : list Z) : Z := fold_left Z.max l z0.

(** [a < b] on numbers. *)
Definition Qlt_bool (a b : Q) : bool := negb (Qle_bool b a).

(** Truthiness of a number. *)
Definition qtruthy (q : Q) : bool := negb (Qeq_bool q 0).

(** Round half to even of a rational. *)
Definition round_half_even (q : Q) : Z :=
  let n := Qnum q in
  let d := Zpos (Qden q) in
  let f := (n / d)%Z in
  let r := (n - f * d)%Z in
  match Z.compare (2 * r) d with
  | Lt => f
  | Gt => (f + 1)%Z
  | Eq => if Z.even f then f else (f + 1)%Z
  end.

(** Python's [round(x, 1)] on the exact value of [x]. *)
Definition round1 (q : Q) : Q := round_half_even (Qred (q * 10)) # 10.

(** The text of an XML element or attribute, as [float()] and [int()] see it. *)
Inductive txt : Type :=
| TInt (z : Z)        (* an integer literal such as "150" *)
| TDec (q : Q)        (* a decimal literal that is not an integer literal, "10000.5" *)
| TOther (s : string). (* anything else, including the empty text *)

Definition py_float (t : txt) : result Q :=
  match t with
  | TInt z => Ok (inject_Z z)
  | TDec q => Ok q
  | TOther _ => Err "ValueError: could not convert string to float"
  end.

Definition py_int (t : txt) : result Z :=
  match t with
  | TInt z => Ok z
  | _ => Err "ValueError: invalid literal for int()"
  end.

(** Truthiness of a [str]: only "" is false. *)
Definition txt_truthy (t : txt) : bool :=
  match t with TOther s => negb (String.eqb s "") | _ => true end.

Local Set Warnings "-register-all".

Inductive jvalue : Type :=
| JNull
| JBool (b : bool)
| JNum (q : Q)
| JStr (s : string)
| JArr (l : list jvalue)
| JObj (l : list (string * jvalue)).

Definition jtruthy (v : jvalue) : bool :=
  match v with
  | JNull => false
  | JBool b => b
  | JNum q => qtruthy q
  | JStr s => negb (String.eqb s "")
  | JArr l => match l with [] => false | _ => true end
  | JObj l => match l with [] => false | _ => true end
  end.

(** A Python dict: keys in insertion order. *)
Definition dict : Type := list (string * jvalue).

Fixpoint dget (k : string) (d : dict) : option jvalue :=
  match d with
  | [] => None
  | (k', v) :: r => if String.eqb k k' then Some v else dget k r
  end.

(** [d[k] = v]: an existing key keeps its position. *)
Fixpoint dset (k : string) (v : jvalue) (d : dict) : dict :=
  match d with
  | [] => [(k, v)]
  | (k', v') :: r => if String.eqb k k' then (k', v) :: r else (k', v') :: dset k v r
  end.

(** [d.get(k)] *)
Definition py_get (k : string) (d : dict) : jvalue :=
  match dget k d with Some v => v | None => JNull end.

(** [d.setdefault(k, v)] *)
Definition setdefault (k : string) (v : jvalue) (d : dict) : dict :=
  match dget k d with Some _ => d | None => dset k v d end.

(** [dict(pairs)]: the last value of a repeated key wins. *)
Definition dict_of_pairs (l : list (string * jvalue)) : dict :=
  fold_left (fun d kv => dset (fst kv) (snd kv) d) l [].

(** A coordinate pair [[lon, lat]]. *)
Definition point : Type := (Q * Q)%type.

(** [normalize_sport] applied to an arbitrary JSON value: a falsy value
    gives "Unknown"; a truthy non-string raises on [.strip()]. *)
Definition normalize_sport_j (v : jvalue) : result string :=
  if jtruthy v then
    match v with
    | JStr s => Ok (normalize_sport (Some s))
    | _ => Err "AttributeError: object has no attribute 'strip'"
    end
  else Ok (normalize_sport None).

(* ------------------------------------------------------------------ *)
(** ** [load_json_meta] (normalise_strava.py, lines 152-162)

<<
def load_json_meta(path):
    data = json.load(open(path))
    meta = {**data}
    meta["sport"] = normalize_sport(meta.get("sport"))
    for k in ["duration_s","distance_m","calories",
              "avg_hr","max_hr","elevation_gain_m",
              "avg_pace_s","cadence"]:
        meta.setdefault(k, None)
    return meta, None
>>  *)

Inductive json_doc : Type :=
| JsonMalformed
| JsonDoc (v : jvalue).

Definition json_default_keys : list string :=
  ["duration_s"; "distance_m"; "calories"; "avg_hr"; "max_hr";
   "elevation_gain_m"; "avg_pace_s"; "cadence"].

(** [for k in keys: meta.setdefault(k, None)] *)
Definition setdefaults (keys : list string) (meta : dict) : dict :=
  fold_left (fun m k => setdefault k JNull m) keys meta.

Definition load_json_meta (doc : json_doc) : result (dict * option (list point)) :=
  match doc with
  | JsonMalformed => Err "JSONDecodeError"
  | JsonDoc (JObj l) =>
      let meta := dict_of_pairs l in
      sport <- normalize_sport_j (py_get "sport" meta) ;;
      let meta := dset "sport" (JStr sport) meta in
      let meta := setdefaults json_default_keys meta in
      Ok (meta, None)
  | JsonDoc _ => Err "TypeError: not a mapping"
  end.

(* ------------------------------------------------------------------ *)
(** ** TCX documents

    The TrainingCenterDatabase elements the two [parse_tcx] functions read.
    An optional field is [None] when the element (or attribute) is missing. *)

Record position : Type := {
  pos_lat : option txt;            (* LatitudeDegrees *)
  pos_lon : option txt             (* LongitudeDegrees *)
}.

Record trackpoint : Type := {
  tp_time : bool;                  (* has a Time child *)
  tp_pos : option position;        (* Position child *)
  tp_alt : option txt;             (* AltitudeMeters *)
  tp_hr : option txt;              (* HeartRateBpm/Value *)
  tp_cad : option txt              (* Cadence *)
}.

Record lap : Type := {
  lap_start : option string;       (* attribute StartTime *)
  lap_attr_time : option txt;      (* attribute TotalTimeSeconds *)
  lap_attr_dist : option txt;      (* attribute DistanceMeters *)
  lap_time : option txt;           (* child TotalTimeSeconds *)
  lap_dist : option txt;           (* child DistanceMeters *)
  lap_cal : option txt;            (* child Calories *)
  lap_avg_hr : option txt;         (* AverageHeartRateBpm/Value *)
  lap_max_hr : option txt;         (* MaximumHeartRateBpm/Value *)
  lap_tps : list trackpoint        (* the lap's Trackpoint elements *)
}.

Record tcx_doc : Type := {
  (** the first Activity element, with its Sport attribute *)
  doc_activity : option (option string);
  (** the Lap elements in document order ([root.findall(".//Lap")]) *)
  doc_laps : list lap;
  (** every Trackpoint element of the document in document order
      ([root.findall(".//Trackpoint")]): those inside the Laps and those
      outside any Lap, such as the Track of a Course *)
  doc_trackpoints : list trackpoint
}.

(** [ET.parse] either fails or yields the document. *)
Inductive tcx_input : Type :=
| TcxMalformed
| TcxDoc (d : tcx_doc).

(** The Trackpoints inside the Laps, lap by lap: the ones preprocess_tcx
    reads with [lap.findall('.//tcx:Trackpoint')]. *)
Definition lap_trackpoints (d : tcx_doc) : list trackpoint := flat_map lap_tps (doc_laps d).

Fixpoint has_slash (s : string) : bool :=
  match s with
  | EmptyString => false
  | String c r => Ascii.eqb c "/" || has_slash r
  end.

(** [os.path.basename]: the part after the last '/'. *)
Fixpoint py_basename (s : string) : string :=
  match s with
  | EmptyString => EmptyString
  | String c r => if has_slash r then py_basename r else if Ascii.eqb c "/" then r else s
  end.

Definition txt_default (dflt : txt) (o : option txt) : txt :=
  match o with Some t => t | None => dflt end.

Fixpoint foldM {S A} (f : S -> A -> result S) (s : S) (l : list A) : result S :=
  match l with
  | [] => Ok s
  | a :: r => s' <- f s a ;; foldM f s' r
  end.

Definition filter_some {A} (l : list (option A)) : list A :=
  flat_map (fun o => match o with Some a => [a] | None => [] end) l.

(** [d.update(kvs)] *)
Definition dupdate (d : dict) (kvs : list (string * jvalue)) : dict :=
  fold_left (fun m kv => dset (fst kv) (snd kv) m) kvs d.

Definition jopt_str (o : option string) : jvalue :=
  match o with Some s => JStr s | None => JNull end.

Definition jopt_z (o : option Z) : jvalue :=
  match o with Some z => JNum (inject_Z z) | None => JNull end.

(** [round(x, 1) if x else None] *)
Definition round1_if_truthy (o : option Q) : jvalue :=
  match o with Some a => if qtruthy a then JNum (round1 a) else JNull | None => JNull end.

(* ------------------------------------------------------------------ *)
(** ** [parse_tcx] of normalise_strava.py (lines 21-68) *)

(** [x.text] of an element found with [find]: a missing element raises. *)
Definition elem_float (o : option txt) : result Q :=
  match o with
  | Some t => py_float t
  | None => Err "AttributeError: 'NoneType' object has no attribute 'text'"
  end.

(** One iteration of the trackpoint loop (lines 43-55); the state is
    [(pts, prev_elev, elev_gain)]. *)
Definition tcx_tp_step (st : list point * option Q * Q) (tp : trackpoint)
    : result (list point * option Q * Q) :=
  let '(pts, prev_elev, elev_gain) := st in
  match tp_pos tp with
  | Some pos =>
      if tp_time tp then
        lat <- elem_float (pos_lat pos) ;;
        lon <- elem_float (pos_lon pos) ;;
        let pts := (pts ++ [(lon, lat)])%list in
        match tp_alt tp with
        | Some ele =>
            e <- py_float ele ;;
            let elev_gain :=
              match prev_elev with
              | Some p => if Qlt_bool p e then elev_gain + (e - p) else elev_gain
              | None => elev_gain
              end in
            Ok (pts, Some e, elev_gain)
        | None => Ok (pts, prev_elev, elev_gain)
        end
      else Ok (pts, prev_elev, elev_gain)
  | None => Ok (pts, prev_elev, elev_gain)
  end.

Definition parse_tcx (path : string) (input : tcx_input) : result (dict * option (list point)) :=
  match input with
  | TcxMalformed => Err "ParseError"
  | TcxDoc d =>
      raw_sport <-
        match doc_activity d with
        | Some sp => Ok (match sp with Some s => s | None => "Unknown" end)
        | None => Err "AttributeError: 'NoneType' object has no attribute 'get'"
        end ;;
      let meta := [("activityId", JStr (py_basename path));
                   ("sport", JStr (normalize_sport (Some raw_sport)))] in
      let laps := doc_laps d in
      times <- mapM (fun l => py_float (txt_default (TInt 0) (lap_attr_time l))) laps ;;
      dists <- mapM (fun l => py_float (txt_default (TInt 0) (lap_attr_dist l))) laps ;;
      cals <- mapM (fun l => py_int (txt_default (TInt 0) (lap_cal l))) laps ;;
      let total_time := qsum times in
      let distance := qsum dists in
      let calories := zsum cals in
      avg_hrs <- mapM py_int (filter_some (map lap_avg_hr laps)) ;;
      max_hrs <- mapM py_int (filter_some (map lap_max_hr laps)) ;;
      let avg_hr :=
        match avg_hrs with
        | [] => None
        | _ => Some (inject_Z (zsum avg_hrs) / inject_Z (Z.of_nat (length avg_hrs)))
        end in
      let max_hr := match max_hrs with [] => None | z :: r => Some (zmax_list z r) end in
      st <- foldM tcx_tp_step ([], None, 0) (doc_trackpoints d) ;;
      let '(pts, _, elev_gain) := st in
      let avg_pace_s := if qtruthy distance then Some (total_time / (distance / 1000)) else None in
      start_time <-
        match laps with
        | l0 :: _ => Ok (lap_start l0)
        | [] => Err "IndexError: list index out of range"
        end ;;
      let meta := dupdate meta
        [("start_time", jopt_str start_time);
         ("duration_s", JNum total_time);
         ("distance_m", JNum distance);
         ("calories", JNum (inject_Z calories));
         ("avg_hr", round1_if_truthy avg_hr);
         ("max_hr", jopt_z max_hr);
         ("elevation_gain_m", JNum (round1 elev_gain));
         ("avg_pace_s", round1_if_truthy avg_pace_s)] in
      Ok (meta, Some pts)
  end.

(** *** Values the TCX extractors read, as plain functions of the document

    On a successful run every text the code parses is a number, so these
    views agree with what [float()] and [int()] returned. *)

Definition txt_q (t : txt) : Q :=
  match t with TInt z => inject_Z z | TDec q => q | TOther _ => 0 end.

Definition txt_z (t : txt) : Z :=
  match t with TInt z => z | _ => 0%Z end.

(** The sum of the TotalTimeSeconds attributes, a missing one counted as 0. *)
Definition tcx_total_time (d : tcx_doc) : Q :=
  qsum (map (fun l => txt_q (txt_default (TInt 0) (lap_attr_time l))) (doc_laps d)).

(** The sum of the DistanceMeters attributes, a missing one counted as 0. *)
Definition tcx_distance (d : tcx_doc) : Q :=
  qsum (map (fun l => txt_q (txt_default (TInt 0) (lap_attr_dist l))) (doc_laps d)).

(** The sum of the Calories children, a missing one counted as 0. *)
Definition tcx_calories (d : tcx_doc) : Z :=
  zsum (map (fun l => txt_z (txt_default (TInt 0) (lap_cal l))) (doc_laps d)).

(** The per-lap average and maximum heart rates that the laps report. *)
Definition tcx_lap_avg_hrs (d : tcx_doc) : list Z :=
  map txt_z (filter_some (map lap_avg_hr (doc_laps d))).

Definition tcx_lap_max_hrs (d : tcx_doc) : list Z :=
  map txt_z (filter_some (map lap_max_hr (doc_laps d))).

(** The altitude samples of the trackpoints that have a Position and a Time. *)
Definition tcx_alt_samples (tps : list trackpoint) : list Q :=
  flat_map (fun tp =>
    match tp_pos tp, tp_time tp, tp_alt tp with
    | Some _, true, Some t => [txt_q t]
    | _, _, _ => []
    end) tps.

(** Arithmetic mean of integers. *)
Definition mean_q (l : list Z) : Q := inject_Z (zsum l) / inject_Z (Z.of_nat (length l)).

(** The sum of the strictly positive differences of consecutive values. *)
Fixpoint sum_pos_deltas (l : list Q) : Q :=
  match l with
  | a :: ((b :: _) as t) => (if Qlt_bool a b then b - a else 0) + sum_pos_deltas t
  | _ => 0
  end.

Definition opt_list {A} (o : option A) : list A := match o with Some a => [a] | None => [] end.

(* ------------------------------------------------------------------ *)
(** ** [parse_tcx] of preprocess_tcx.py (lines 24-76)

    The function returns one dict whose last key is 'coordinates'; [main]
    immediately splits it into the metadata (every other key, in order) and
    the coordinates, so the model returns the two parts. *)

Record pre_state : Type := mk_pre {
  ps_coords : list point;
  ps_hrs : list Z;
  ps_alts : list Q;
  ps_cads : list Z;
  ps_dist : Q;
  ps_sec : Q;
  ps_cal : Q;
  ps_start : option string
}.

(** [tp.findtext('tcx:Position/tcx:LatitudeDegrees', None, ns)] *)
Definition tp_lat (tp : trackpoint) : option txt :=
  match tp_pos tp with Some p => pos_lat p | None => None end.
Definition tp_lon (tp : trackpoint) : option txt :=
  match tp_pos tp with Some p => pos_lon p | None => None end.

(** Truthiness of [findtext(..., None)]: [None] and "" are false. *)
Definition opt_truthy (o : option txt) : bool :=
  match o with Some t => txt_truthy t | None => false end.

(** [if x: l.append(conv(x))] *)
Definition append_if {A} (o : option txt) (conv : txt -> result A) (l : list A)
    : result (list A) :=
  match o with
  | Some t => if txt_truthy t then (a <- conv t ;; Ok (l ++ [a])%list) else Ok l
  | None => Ok l
  end.

(** The body of [for tp in lap.findall('.//tcx:Trackpoint', ns)] (lines 46-55). *)
Definition pre_tp_step (s : pre_state) (tp : trackpoint) : result pre_state :=
  let lat := tp_lat tp in
  let lon := tp_lon tp in
  match lat, lon with
  | Some la, Some lo =>
      if txt_truthy la && txt_truthy lo then
        flon <- py_float lo ;;
        flat <- py_float la ;;
        hrs <- append_if (tp_hr tp) py_int (ps_hrs s) ;;
        alts <- append_if (tp_alt tp) py_float (ps_alts s) ;;
        cads <- append_if (tp_cad tp) py_int (ps_cads s) ;;
        Ok (mk_pre (ps_coords s ++ [(flon, flat)])%list hrs alts cads
                   (ps_dist s) (ps_sec s) (ps_cal s) (ps_start s))
      else Ok s
  | _, _ => Ok s
  end.

(** The body of [for lap in laps] (lines 39-55). *)
Definition pre_lap_step (s : pre_state) (l : lap) : result pre_state :=
  let start := match ps_start s with None => lap_start l | Some x => Some x end in
  dist <- py_float (txt_default (TInt 0) (lap_dist l)) ;;
  sec <- py_float (txt_default (TInt 0) (lap_time l)) ;;
  cal <- py_float (txt_default (TInt 0) (lap_cal l)) ;;
  foldM pre_tp_step
    (mk_pre (ps_coords s) (ps_hrs s) (ps_alts s) (ps_cads s)
            (ps_dist s + dist) (ps_sec s + sec) (ps_cal s + cal) start)
    (lap_tps l).

(** [np.diff] *)
Fixpoint np_diff (l : list Q) : list Q :=
  match l with
  | a :: ((b :: _) as t) => (b - a) :: np_diff t
  | _ => []
  end.

(** [float(np.sum(np.diff(alts)[np.diff(alts) > 0]))] *)
Definition np_pos_diff_sum (alts : list Q) : Q :=
  qsum (filter (fun x => Qlt_bool 0 x) (np_diff alts)).

(** [int(np.mean(xs))]: the mean truncated toward zero. *)
Definition int_mean (xs : list Z) : Z := Z.quot (zsum xs) (Z.of_nat (length xs)).

Definition jopt_q (o : option Q) : jvalue :=
  match o with Some q => JNum q | None => JNull end.

Definition pre_parse_tcx (stem : string) (input : tcx_input) : result (dict * list point) :=
  match input with
  | TcxMalformed => Err "ParseError"
  | TcxDoc d =>
      let sport := match doc_activity d with Some (Some s) => s | _ => "Other" end in
      s <- foldM pre_lap_step (mk_pre [] [] [] [] 0 0 0 None) (doc_laps d) ;;
      let hrs := ps_hrs s in
      let alts := ps_alts s in
      let cads := ps_cads s in
      let avg_hr := match hrs with [] => None | _ => Some (int_mean hrs) end in
      let max_hr := match hrs with [] => None | z :: r => Some (zmax_list z r) end in
      let elevation_gain :=
        if (1 <? length alts)%nat then Some (np_pos_diff_sum alts) else None in
      let avg_cadence := match cads with [] => None | _ => Some (int_mean cads) end in
      let avg_pace_s :=
        if Qlt_bool 0 (ps_dist s) then Some (ps_sec s / (ps_dist s / 1000)) else None in
      Ok ([("activityId", JStr stem);
           ("start_time", jopt_str (ps_start s));
           ("sport", JStr sport);
           ("distance_m", JNum (ps_dist s));
           ("duration_s", JNum (ps_sec s));
           ("avg_hr", jopt_z avg_hr);
           ("max_hr", jopt_z max_hr);
           ("avg_pace_s", jopt_q avg_pace_s);
           ("elevation_gain_m", jopt_q elevation_gain);
           ("cadence", jopt_z avg_cadence);
           ("calories", JNum (ps_cal s))], ps_coords s)
  end.

(** *** Values preprocess_tcx's [parse_tcx] reads, as plain functions *)

(** A trackpoint enters the coordinates when both [findtext] results are
    non-empty texts. *)
Definition pre_located (tp : trackpoint) : bool := opt_truthy (tp_lat tp) && opt_truthy (tp_lon tp).

Definition opt_sample {A} (view : txt -> A) (o : option txt) : list A :=
  match o with Some t => if txt_truthy t then [view t] else [] | None => [] end.

(** The heart-rate and altitude samples of the located trackpoints. *)
Definition pre_hr_samples (tps : list trackpoint) : list Z :=
  flat_map (fun tp => if pre_located tp then opt_sample txt_z (tp_hr tp) else []) tps.

Definition pre_alt_samples (tps : list trackpoint) : list Q :=
  flat_map (fun tp => if pre_located tp then opt_sample txt_q (tp_alt tp) else []) tps.

(** The sum over laps of a child value, a missing one counted as 0. *)
Definition lap_child_sum (f : lap -> option txt) (laps : list lap) : Q :=
  qsum (map (fun l => txt_q (txt_default (TInt 0) (f l))) laps).

(* ------------------------------------------------------------------ *)
(** ** The batch loops *)

(** What a run does that can be observed: messages and written files. *)
Inductive event : Type :=
| Print (msg : string)
| PrintWrote (n_index n_features : nat)   (* "Wrote {len(index)} metadata entries and {len(features)} geo features." *)
| PrintProcessed (n : nat)               (* "Processed {len(segments)} activities." *)
| Mkdir (dir : string)
| WriteJson (path : string) (v : jvalue).

(** [str.endswith] *)
Definition ends_with (suf s : string) : bool :=
  let n := String.length s in
  let k := String.length suf in
  (k <=? n)%nat && String.eqb (substring (n - k) k s) suf.

Definition point_json (p : point) : jvalue := JArr [JNum (fst p); JNum (snd p)].

(** [{"type": "LineString", "coordinates": pts}] *)
Definition line_string (pts : list point) : jvalue :=
  JObj [("type", JStr "LineString"); ("coordinates", JArr (map point_json pts))].

Definition feature_collection (feats : list jvalue) : jvalue :=
  JObj [("type", JStr "FeatureCollection"); ("features", JArr feats)].

(** Truthiness of [pts]: [None] and [[]] are false. *)
Definition pts_truthy (pts : option (list point)) : bool :=
  match pts with Some (_ :: _) => true | _ => false end.

Definition OUT_INDEX : string := "activity_index.json".
Definition OUT_GEOJSON : string := "segments.geojson".

(** *** The module-level loop of normalise_strava.py (lines 165-189)

    The loop is written over any four extractors: the argument [File] is the
    content of a file, each extractor receives [os.path.join(RAW_DIR, fname)]
    and the content, and returns [(meta, pts)] or raises. *)
Section StravaBatch.

Variable File : Type.
Variable ex_tcx ex_gpx : string -> File -> result (dict * option (list point)).
Variable ex_fit : string -> bool -> File -> result (dict * option (list point)).
Variable ex_json : string -> File -> result (dict * option (list point)).

(** The [if/elif] chain on the lower-cased file name; [None] is [continue]. *)
Definition dispatch (fname : string) (f : File) : option (result (dict * option (list point))) :=
  let lower := py_lower fname in
  let path := "raw/" ++ fname in
  if ends_with ".tcx" lower then Some (ex_tcx path f)
  else if ends_with ".gpx" lower then Some (ex_gpx path f)
  else if ends_with ".fit" lower then Some (ex_fit path false f)
  else if ends_with ".fit.gz" lower then Some (ex_fit path true f)
  else if ends_with ".json" lower then Some (ex_json path f)
  else None.

(** [{"type": "Feature", "geometry": ..., "properties": m}] *)
Definition strava_feature (m : dict) (pts : option (list point)) : jvalue :=
  JObj [("type", JStr "Feature");
        ("geometry", line_string (match pts with Some l => l | None => [] end));
        ("properties", JObj m)].

(** One iteration, on the state [(features, index, messages printed)]. *)
Definition strava_step (st : list jvalue * list dict * list event) (entry : string * File)
    : list jvalue * list dict * list event :=
  let '(features, index, out) := st in
  let '(fname, f) := entry in
  match dispatch fname f with
  | None => st
  | Some (Ok (m, pts)) =>
      ((features ++ (if pts_truthy pts then [strava_feature m pts] else []))%list,
       (index ++ [m])%list, out)
  | Some (Err e) =>
      (features, index, (out ++ [Print ("Failed to parse " ++ fname ++ ": " ++ e)])%list)
  end.

(** The whole run on the listing of [raw/] in [os.listdir] order. *)
Definition strava_main (listing : list (string * File)) : list event :=
  let '(features, index, out) := fold_left strava_step listing ([], [], []) in
  (out ++ [WriteJson OUT_INDEX (JArr (map JObj index));
           WriteJson OUT_GEOJSON (feature_collection features);
           PrintWrote (length index) (length features)])%list.

(** The messages, records and features the loop is expected to produce,
    file by file. *)
Definition strava_failures (listing : list (string * File)) : list event :=
  flat_map (fun entry =>
    match dispatch (fst entry) (snd entry) with
    | Some (Err e) => [Print ("Failed to parse " ++ fst entry ++ ": " ++ e)]
    | _ => []
    end) listing.

Definition strava_records (listing : list (string * File)) : list dict :=
  flat_map (fun entry =>
    match dispatch (fst entry) (snd entry) with
    | Some (Ok (m, _)) => [m]
    | _ => []
    end) listing.

Definition strava_features (listing : list (string * File)) : list jvalue :=
  flat_map (fun entry =>
    match dispatch (fst entry) (snd entry) with
    | Some (Ok (m, pts)) => if pts_truthy pts then [strava_feature m pts] else []
    | _ => []
    end) listing.

End StravaBatch.

(** *** [main] of preprocess_tcx.py (lines 78-119)

    The listing is [raw_dir.glob('*.tcx')], each path with its stem. *)

Inductive pre_outcome : Type :=
| Finished (out : list event)
| Raised (out : list event) (e : string).

(** [{'type': 'Feature', 'geometry': ..., 'properties': {'activityId': ...}}] *)
Definition pre_feature (stem : string) (coords : list point) : jvalue :=
  JObj [("type", JStr "Feature"); ("geometry", line_string coords);
        ("properties", JObj [("activityId", JStr stem)])].

(** The loop (lines 89-111): the files written, the exception that ended it
    (if any), and the [segments] and [index] lists. *)
Fixpoint pre_loop (files : list (string * tcx_input)) (segments index : list jvalue)
    : list event * option string * list jvalue * list jvalue :=
  match files with
  | [] => ([], None, segments, index)
  | (stem, inp) :: rest =>
      match pre_parse_tcx stem inp with
      | Err e => ([], Some e, segments, index)
      | Ok (meta, coords) =>
          if (length coords <? 2)%nat then pre_loop rest segments index
          else
            let feat := pre_feature stem coords in
            let '(out, err, segs, idx) :=
              pre_loop rest (segments ++ [feat])%list (index ++ [JObj meta])%list in
            (WriteJson ("geojson/" ++ stem ++ ".geojson") feat ::
             WriteJson ("metadata/" ++ stem ++ ".json") (JObj meta) :: out,
             err, segs, idx)
      end
  end.

(** The metadata of the files that parse and have at least two coordinates. *)
Definition pre_kept (files : list (string * tcx_input)) : list dict :=
  flat_map (fun entry =>
    match pre_parse_tcx (fst entry) (snd entry) with
    | Ok (meta, coords) => if (length coords <? 2)%nat then [] else [meta]
    | Err _ => []
    end) files.

(** The features of the same files. *)
Definition pre_kept_features (files : list (string * tcx_input)) : list jvalue :=
  flat_map (fun entry =>
    match pre_parse_tcx (fst entry) (snd entry) with
    | Ok (_, coords) => if (length coords <? 2)%nat then [] else [pre_feature (fst entry) coords]
    | Err _ => []
    end) files.

Definition pre_main (files : list (string * tcx_input)) : pre_outcome :=
  let dirs := [Mkdir "geojson"; Mkdir "metadata"] in
  let '(out, err, segments, index) := pre_loop files [] [] in
  match err with
  | Some e => Raised (dirs ++ out)%list e
  | None =>
      Finished (dirs ++ out ++
        [WriteJson "segments.geojson" (feature_collection segments);
         WriteJson "activity_index.json" (JArr index);
         PrintProcessed (length segments);
         Print "Outputs written to segments.geojson and activity_index.json"])%list
  end.

(* ------------------------------------------------------------------ *)
(** ** [parse_gpx] of normalise_strava.py (lines 71-97)

    The file is given as what [gpxpy.parse] returns: its tracks, each a list
    of segments, each a list of points, and the value of [gpx.length_2d()]
    (computed by gpxpy from the points). Decoding uses
    [errors="replace"] and never fails; [gpxpy.parse] may reject the text. *)

Record gpx_point : Type := {
  gpx_latitude : Q;
  gpx_longitude : Q;
  gpx_time : option string     (* the text of [time.isoformat()], or no time *)
}.

Record gpx_doc : Type := {
  gpx_tracks : list (list (list gpx_point));
  gpx_length_2d : Q
}.

Inductive gpx_input : Type :=
| GpxMalformed                (* [gpxpy.parse] raises *)
| GpxDoc (g : gpx_doc).

(** [sub in s] on strings. *)
Fixpoint str_contains (sub s : string) : bool :=
  match s with
  | EmptyString => String.prefix sub s
  | String _ r => String.prefix sub s || str_contains sub r
  end.

(** [gpx.tracks[0].segments[0].points[0].time.isoformat()] *)
Definition gpx_start (g : gpx_doc) : result string :=
  match gpx_tracks g with
  | [] => Err "IndexError: list index out of range"
  | tr :: _ =>
      match tr with
      | [] => Err "IndexError: list index out of range"
      | seg :: _ =>
          match seg with
          | [] => Err "IndexError: list index out of range"
          | p :: _ =>
              match gpx_time p with
              | Some t => Ok t
              | None => Err "AttributeError: 'NoneType' object has no attribute 'isoformat'"
              end
          end
      end
  end.

Definition parse_gpx (path : string) (input : gpx_input) : result (dict * option (list point)) :=
  match input with
  | GpxMalformed => Err "GPXXMLSyntaxException"
  | GpxDoc g =>
      let pts := flat_map (fun tr => flat_map (fun seg =>
                   map (fun p => (gpx_longitude p, gpx_latitude p)) seg) tr) (gpx_tracks g) in
      start <- gpx_start g ;;
      let distance := gpx_length_2d g in
      let raw_sport := if str_contains "run" (py_lower path) then "Running" else "Biking" in
      Ok ([("activityId", JStr (py_basename path));
           ("sport", JStr (normalize_sport (Some raw_sport)));
           ("start_time", JStr start);
           ("duration_s", JNull);
           ("distance_m", JNum distance);
           ("calories", JNull);
           ("avg_hr", JNull);
           ("max_hr", JNull);
           ("elevation_gain_m", JNull);
           ("avg_pace_s", JNull)], Some pts)
  end.

(* ------------------------------------------------------------------ *)
(** ** [parse_fit] of normalise_strava.py (lines 100-149)

    A FIT stream is given as its decoded [record] and [session] messages, in
    stream order, each with the fields that [get_values()] reports (a field
    that is not reported is [None]). Positions are raw semicircles ([int]);
    a timestamp is given by the text of its [isoformat()]. *)

Record fit_record : Type := {
  rec_position_lat : option Z;
  rec_position_long : option Z;
  rec_timestamp : option string;
  rec_distance : option Q;
  rec_heart_rate : option Z;
  rec_enhanced_altitude : option Q;
  rec_altitude : option Q;
  rec_cadence : option Z
}.

Record fit_session : Type := {
  ses_sport : option string;
  ses_total_elapsed_time : option Q;
  ses_total_calories : option Z
}.

Record fit_file : Type := {
  fit_records : list fit_record;
  fit_sessions : list fit_session
}.

Inductive fit_input : Type :=
| FitMalformed                (* [FitFile] raises on the stream *)
| FitDoc (f : fit_file).

(** Truthiness of an optional number and of an optional string. *)
Definition zopt_truthy (o : option Z) : bool :=
  match o with Some z => negb (Z.eqb z 0) | None => false end.
Definition qopt_truthy (o : option Q) : bool :=
  match o with Some q => qtruthy q | None => false end.
Definition sopt_truthy (o : option string) : bool :=
  match o with Some s => negb (String.eqb s "") | None => false end.

(** [x * (180 / (2 ** 31))] *)
Definition semi_to_deg (z : Z) : Q := inject_Z z * (180 / inject_Z (2 ^ 31)).

(** [vals.get("enhanced_altitude") or vals.get("altitude")] *)
Definition fit_ele (r : fit_record) : option Q :=
  match rec_enhanced_altitude r with
  | Some e => if qtruthy e then Some e else rec_altitude r
  | None => rec_altitude r
  end.

Definition fit_meta_keys : list string :=
  ["activityId"; "sport"; "start_time"; "duration_s"; "distance_m";
   "calories"; "avg_hr"; "max_hr"; "elevation_gain_m"; "avg_pace_s"; "cadence"].

(** The state of the record loop: [(pts, meta, hr_samples, prev_elev, elev_gain)]. *)
Definition fit_state : Type := (list point * dict * list Z * option Q * Q)%type.

(** One iteration of [for msg in fit.get_messages("record")] (lines 112-129). *)
Definition fit_rec_step (st : fit_state) (r : fit_record) : fit_state :=
  let '(pts, meta, hr_samples, prev_elev, elev_gain) := st in
  let pts :=
    match rec_position_lat r, rec_position_long r with
    | Some lat, Some lon =>
        if zopt_truthy (Some lat) && zopt_truthy (Some lon)
        then (pts ++ [(semi_to_deg lon, semi_to_deg lat)])%list else pts
    | _, _ => pts
    end in
  let meta :=
    match rec_timestamp r with
    | Some ts => if negb (jtruthy (py_get "start_time" meta))
                 then dset "start_time" (JStr ts) meta else meta
    | None => meta
    end in
  let meta :=
    match rec_distance r with
    | Some x => if qtruthy x then dset "distance_m" (JNum x) meta else meta
    | None => meta
    end in
  let hr_samples :=
    match rec_heart_rate r with
    | Some h => if zopt_truthy (Some h) then (hr_samples ++ [h])%list else hr_samples
    | None => hr_samples
    end in
  let '(prev_elev, elev_gain) :=
    match fit_ele r with
    | Some ele =>
        (Some ele,
         match prev_elev with
         | Some p => if Qlt_bool p ele then elev_gain + (ele - p) else elev_gain
         | None => elev_gain
         end)
    | None => (prev_elev, elev_gain)
    end in
  let meta :=
    match rec_cadence r with
    | Some c => if zopt_truthy (Some c) then dset "cadence" (JNum (inject_Z c)) meta else meta
    | None => meta
    end in
  (pts, meta, hr_samples, prev_elev, elev_gain).

(** One iteration of [for msg in fit.get_messages("session")] (lines 132-138). *)
Definition fit_ses_step (meta : dict) (v : fit_session) : dict :=
  let meta :=
    match ses_sport v with
    | Some sp => if sopt_truthy (Some sp) && negb (jtruthy (py_get "sport" meta))
                 then dset "sport" (JStr (normalize_sport (Some sp))) meta else meta
    | None => meta
    end in
  let meta :=
    match ses_total_elapsed_time v with
    | Some t => if qtruthy t && negb (jtruthy (py_get "duration_s" meta))
                then dset "duration_s" (JNum t) meta else meta
    | None => meta
    end in
  match ses_total_calories v with
  | Some c => if zopt_truthy (Some c) && negb (jtruthy (py_get "calories" meta))
              then dset "calories" (JNum (inject_Z c)) meta else meta
  | None => meta
  end.

(** The summary block after the loops (lines 140-146), one [if] at a time. *)
Definition fit_hr_update (meta : dict) (hr_samples : list Z) : dict :=
  match hr_samples with
  | [] => meta
  | h :: r => dset "max_hr" (JNum (inject_Z (zmax_list h r)))
                (dset "avg_hr" (JNum (round1 (mean_q hr_samples))) meta)
  end.

Definition fit_elev_update (meta : dict) (elev_gain : Q) : dict :=
  if qtruthy elev_gain then dset "elevation_gain_m" (JNum (round1 elev_gain)) meta else meta.

(** [if meta.get("distance_m") and meta.get("duration_s"): ...]; both values
    are numbers or [None] here. *)
Definition fit_pace_update (meta : dict) : dict :=
  match py_get "distance_m" meta, py_get "duration_s" meta with
  | JNum dist, JNum dur =>
      if qtruthy dist && qtruthy dur
      then dset "avg_pace_s" (JNum (round1 (dur / (dist / 1000)))) meta else meta
  | _, _ => meta
  end.

Definition fit_finish (meta : dict) (hr_samples : list Z) (elev_gain : Q) : dict :=
  fit_pace_update (fit_elev_update (fit_hr_update meta hr_samples) elev_gain).

Definition parse_fit (path : string) (compressed : bool) (input : fit_input)
    : result (dict * option (list point)) :=
  match input with
  | FitMalformed => Err "FitParseError"
  | FitDoc f =>
      let meta := dict_of_pairs (map (fun k => (k, JNull)) fit_meta_keys) in
      let meta := dset "activityId" (JStr (py_basename path)) meta in
      let '(pts, meta, hr_samples, _, elev_gain) :=
        fold_left fit_rec_step (fit_records f) ([], meta, [], None, 0) in
      let meta := fold_left fit_ses_step (fit_sessions f) meta in
      Ok (fit_finish meta hr_samples elev_gain, Some pts)
  end.

(** *** Values [parse_fit] reads, as plain functions of the stream *)

(** The distances of the records that report a non-zero one, in order. *)
Definition fit_distances (rs : list fit_record) : list Q :=
  filter qtruthy (filter_some (map rec_distance rs)).

(** The converted positions of the records whose latitude and longitude are
    both reported and non-zero. *)
Definition fit_points (rs : list fit_record) : list point :=
  flat_map (fun r =>
    match rec_position_lat r, rec_position_long r with
    | Some lat, Some lon =>
        if negb (Z.eqb lat 0) && negb (Z.eqb lon 0)
        then [(semi_to_deg lon, semi_to_deg lat)] else []
    | _, _ => []
    end) rs.

(* ------------------------------------------------------------------ *)
(** ** Concrete inputs used by the examples below *)

Definition tp_at (lat lon : Z) (alt : option txt) : trackpoint :=
  {| tp_time := true;
     tp_pos := Some {| pos_lat := Some (TInt lat); pos_lon := Some (TInt lon) |};
     tp_alt := alt; tp_hr := None; tp_cad := None |}.

(** A lap written the way TCX files carry it: TotalTimeSeconds, DistanceMeters
    and Calories are child elements, StartTime an attribute. *)
Definition lap_with (time dist : option txt) (cal avg max : option txt) (tps : list trackpoint) : lap :=
  {| lap_start := Some "2024-05-01T07:00:00Z"; lap_attr_time := None; lap_attr_dist := None;
     lap_time := time; lap_dist := dist; lap_cal := cal;
     lap_avg_hr := avg; lap_max_hr := max; lap_tps := tps |}.

(** An Activity document: its Trackpoints are those of its laps. *)
Definition doc_of (laps : list lap) : tcx_doc :=
  {| doc_activity := Some (Some "Running"); doc_laps := laps;
     doc_trackpoints := flat_map lap_tps laps |}.

(** A run with a single located trackpoint. *)
Definition one_point_doc : tcx_doc :=
  doc_of [lap_with (Some (TInt 60)) (Some (TInt 100)) None None None [tp_at 45 7 None]].

(** A run with two located trackpoints. *)
Definition two_point_doc : tcx_doc :=
  doc_of [lap_with (Some (TInt 60)) (Some (TInt 100)) None None None
                   [tp_at 45 7 None; tp_at 46 7 None]].

(** What [load_json_meta] returns for [{"sport": "run"}]. *)
Definition json_run_meta : dict :=
  [("sport", JStr "Run"); ("duration_s", JNull); ("distance_m", JNull);
   ("calories", JNull); ("avg_hr", JNull); ("max_hr", JNull);
   ("elevation_gain_m", JNull); ("avg_pace_s", JNull); ("cadence", JNull)].

(** A trackpoint at a position, with an altitude and a heart rate. *)
Definition tp_full (lat lon : Z) (alt hr : option txt) : trackpoint :=
  {| tp_time := true;
     tp_pos := Some {| pos_lat := Some (TInt lat); pos_lon := Some (TInt lon) |};
     tp_alt := alt; tp_hr := hr; tp_cad := None |}.

(** A run whose lap reports an average of 150 bpm and a maximum of 170 bpm,
    while its two trackpoints record 100 and 120 bpm. *)
Definition hr_doc : tcx_doc :=
  doc_of [lap_with (Some (TInt 60)) (Some (TInt 100)) None (Some (TInt 150)) (Some (TInt 170))
                   [tp_full 45 7 None (Some (TInt 100)); tp_full 46 7 None (Some (TInt 120))]].

(** A Course: no Activity element, a lap without trackpoints, and a Track
    outside the laps whose two trackpoints record 100 and 120 bpm. *)
Definition course_doc : tcx_doc :=
  {| doc_activity := None;
     doc_laps := [{| lap_start := None; lap_attr_time := None; lap_attr_dist := None;
                     lap_time := Some (TInt 60); lap_dist := Some (TInt 100); lap_cal := None;
                     lap_avg_hr := None; lap_max_hr := None; lap_tps := [] |}];
     doc_trackpoints := [tp_full 45 7 None (Some (TInt 100)); tp_full 46 7 None (Some (TInt 120))] |}.

(** A run whose two trackpoints are at 100 m and 100.25 m. *)
Definition climb_doc : tcx_doc :=
  doc_of [lap_with (Some (TInt 60)) (Some (TInt 100)) None None None
                   [tp_at 45 7 (Some (TInt 100)); tp_at 46 7 (Some (TDec (401 # 4)))]].

(** A run over the altitudes 100, 105, 102, 110. *)
Definition walk_doc : tcx_doc :=
  doc_of [lap_with (Some (TInt 600)) (Some (TInt 2000)) (Some (TInt 120)) None None
                   [tp_at 45 7 (Some (TInt 100)); tp_at 46 7 (Some (TInt 105));
                    tp_at 47 7 (Some (TInt 102)); tp_at 48 7 (Some (TInt 110))]].

(** A record message that reports only a distance, and one that reports only
    a position. *)
Definition fit_dist_rec (x : Q) : fit_record :=
  {| rec_position_lat := None; rec_position_long := None; rec_timestamp := None;
     rec_distance := Some x; rec_heart_rate := None; rec_enhanced_altitude := None;
     rec_altitude := None; rec_cadence := None |}.

Definition fit_pos_rec (lat lon : Z) : fit_record :=
  {| rec_position_lat := Some lat; rec_position_long := Some lon; rec_timestamp := None;
     rec_distance := None; rec_heart_rate := None; rec_enhanced_altitude := None;
     rec_altitude := None; rec_cadence := None |}.

(** A FIT activity with the given records and one running session. *)
Definition fit_of (rs : list fit_record) (elapsed : option Q) : fit_file :=
  {| fit_records := rs;
     fit_sessions := [{| ses_sport := Some "running"; ses_total_elapsed_time := elapsed;
                         ses_total_calories := None |}] |}.

(** Reading a field of an extractor's result: the metadata (empty when the
    extractor raised), a number compared up to [==], a null. *)
Definition meta_of {A} (r : result (dict * A)) : dict :=
  match r with Ok (m, _) => m | Err _ => [] end.

Definition num_is (k : string) (m : dict) (q : Q) : bool :=
  match dget k m with Some (JNum x) => Qeq_bool x q | _ => false end.

Definition null_at (k : string) (m : dict) : bool :=
  match dget k m with Some JNull => true | _ => false end.

(** The coordinates and the metadata of a state of the FIT record loop. *)
Definition fs_pts (st : fit_state) : list point := let '(p, _, _, _, _) := st in p.
Definition fs_meta (st : fit_state) : dict := let '(_, m, _, _, _) := st in m.

(* ------------------------------------------------------------------ *)
(** ** More views of what the extractors read *)

(** The [[lon, lat]] pairs of the trackpoints that have a Position and a Time
    and both coordinates (normalise_strava's [parse_tcx]). *)
Definition tcx_points (tps : list trackpoint) : list point :=
  flat_map (fun tp =>
    match tp_pos tp, tp_time tp with
    | Some p, true =>
        match pos_lat p, pos_lon p with
        | Some la, Some lo => [(txt_q lo, txt_q la)]
        | _, _ => []
        end
    | _, _ => []
    end) tps.

(** The [(lon, lat)] pairs of the trackpoints with non-empty coordinate
    texts (preprocess_tcx's [parse_tcx]). *)
Definition pre_points (tps : list trackpoint) : list point :=
  flat_map (fun tp =>
    if pre_located tp then
      match tp_lat tp, tp_lon tp with
      | Some la, Some lo => [(txt_q lo, txt_q la)]
      | _, _ => []
      end
    else []) tps.

(** The first element of a list of options that is present. *)
Definition first_some {A} (l : list (option A)) : option A :=
  match filter_some l with x :: _ => Some x | [] => None end.

(** The remaining components of a state of the FIT record loop. *)
Definition fs_hrs (st : fit_state) : list Z := let '(_, _, h, _, _) := st in h.
Definition fs_prev (st : fit_state) : option Q := let '(_, _, _, p, _) := st in p.
Definition fs_gain (st : fit_state) : Q := let '(_, _, _, _, g) := st in g.

(** The non-zero heart rates, the altitude samples and the non-zero cadences
    of the FIT records, in stream order. *)
Definition fit_hrs (rs : list fit_record) : list Z :=
  filter (fun z => negb (Z.eqb z 0)) (filter_some (map rec_heart_rate rs)).
Definition fit_eles (rs : list fit_record) : list Q := filter_some (map fit_ele rs).
Definition fit_cadences (rs : list fit_record) : list Z :=
  filter (fun z => negb (Z.eqb z 0)) (filter_some (map rec_cadence rs)).

(** A session's sport when it is a non-empty string, its elapsed time and
    calories when non-zero. *)
Definition ses_sport_truthy (v : fit_session) : option string :=
  match ses_sport v with Some s => if String.eqb s "" then None else Some s | None => None end.
Definition ses_time_truthy (v : fit_session) : option Q :=
  match ses_total_elapsed_time v with Some t => if qtruthy t then Some t else None | None => None end.
Definition ses_cal_truthy (v : fit_session) : option Z :=
  match ses_total_calories v with Some c => if Z.eqb c 0 then None else Some c | None => None end.

(** A GPX document whose tracks are given, with no recorded length. *)
Definition gpx_of (tracks : list (list (list gpx_point))) : gpx_doc :=
  {| gpx_tracks := tracks; gpx_length_2d := 0 |}.

Definition gpt (lat lon : Z) (t : option string) : gpx_point :=
  {| gpx_latitude := inject_Z lat; gpx_longitude := inject_Z lon; gpx_time := t |}.

(** A document whose laps keep their values but whose trackpoint lists
    (each lap's and the document-wide one) are transformed by [f] (used to
    drop trackpoints). *)
Definition tcx_map_tps (f : list trackpoint -> list trackpoint) (d : tcx_doc) : tcx_doc :=
  {| doc_activity := doc_activity d;
     doc_laps := map (fun l =>
       {| lap_start := lap_start l; lap_attr_time := lap_attr_time l;
          lap_attr_dist := lap_attr_dist l; lap_time := lap_time l; lap_dist := lap_dist l;
          lap_cal := lap_cal l; lap_avg_hr := lap_avg_hr l; lap_max_hr := lap_max_hr l;
          lap_tps := f (lap_tps l) |}) (doc_laps d);
     doc_trackpoints := f (doc_trackpoints d) |}.

(** The trackpoints normalise_strava's [parse_tcx] reads: those with a
    Position and a Time. *)
Definition tcx_tp_used (tp : trackpoint) : bool :=
  match tp_pos tp with Some _ => tp_time tp | None => false end.

(* ================================================================== *)
(** * Proofs *)

(** ** Character facts, checked over all 256 characters *)

Ltac all_chars c := destruct c as [[|] [|] [|] [|] [|] [|] [|] [|]]; reflexivity.

Lemma char_lower_idem (c : ascii) : char_lower (char_lower c) = char_lower c.
Proof. all_chars c. Qed.

Lemma char_lower_upper (c : ascii) : char_lower (char_upper c) = char_lower c.
Proof. all_chars c. Qed.

Lemma char_upper_idem (c : ascii) : char_upper (char_upper c) = char_upper c.
Proof. all_chars c. Qed.

Lemma is_cased_lower (c : ascii) : is_cased (char_lower c) = is_cased c.
Proof. all_chars c. Qed.

Lemma is_cased_upper (c : ascii) : is_cased (char_upper c) = is_cased c.
Proof. all_chars c. Qed.

Lemma isspace_lower (c : ascii) : py_isspace (char_lower c) = py_isspace c.
Proof. all_chars c. Qed.

(** ** String lemmas *)

Lemma py_lower_empty (s : string) : py_lower s = EmptyString -> s = EmptyString.
Proof. destruct s; simpl; congruence. Qed.

Lemma lstrip_lower (s : string) : lstrip (py_lower s) = py_lower (lstrip s).
Proof.
  induction s as [|c r IH]; simpl; [reflexivity|].
  rewrite isspace_lower. destruct (py_isspace c); [exact IH | reflexivity].
Qed.

Lemma rstrip_lower (s : string) : rstrip (py_lower s) = py_lower (rstrip s).
Proof.
  induction s as [|c r IH]; simpl; [reflexivity|].
  rewrite IH, isspace_lower.
  destruct (rstrip r) eqn:E; simpl; [|reflexivity].
  destruct (py_isspace c); reflexivity.
Qed.

Lemma strip_lower (s : string) : py_strip (py_lower s) = py_lower (py_strip s).
Proof. unfold py_strip. rewrite lstrip_lower, rstrip_lower. reflexivity. Qed.

Lemma lower_title_aux (b : bool) (s : string) :
  py_lower (title_aux b s) = py_lower s.
Proof.
  revert b; induction s as [|c r IH]; intro b; simpl; [reflexivity|].
  rewrite IH. f_equal.
  destruct (is_cased c), b; auto using char_lower_idem, char_lower_upper.
Qed.

Lemma title_aux_idem (b : bool) (s : string) :
  title_aux b (title_aux b s) = title_aux b s.
Proof.
  revert b; induction s as [|c r IH]; intro b; simpl; [reflexivity|].
  destruct (is_cased c) eqn:Hc, b;
    rewrite ?is_cased_lower, ?is_cased_upper, ?Hc, ?char_lower_idem, ?char_upper_idem, ?IH;
    try rewrite Hc; reflexivity.
Qed.

Lemma title_nonempty (s : string) : s <> EmptyString -> py_title s <> EmptyString.
Proof. destruct s as [|c r]; intro H; [contradiction H; reflexivity | discriminate]. Qed.

Lemma lower_strip_title (s : string) :
  py_lower (py_strip (py_title s)) = py_lower (py_strip s).
Proof.
  rewrite <- !strip_lower. unfold py_title. rewrite lower_title_aux. reflexivity.
Qed.

Lemma all_nonspace_lower (s : string) : all_nonspace (py_lower s) = all_nonspace s.
Proof. induction s; simpl; [reflexivity|]. rewrite isspace_lower, IHs. reflexivity. Qed.

Lemma rstrip_nonspace (s : string) : all_nonspace s = true -> rstrip s = s.
Proof.
  induction s as [|c r IH]; simpl; [reflexivity|].
  intro H; apply andb_prop in H as [H1 H2]. rewrite (IH H2).
  destruct r; [|reflexivity]. destruct (py_isspace c); [discriminate|reflexivity].
Qed.

Lemma strip_nonspace (s : string) : all_nonspace s = true -> py_strip s = s.
Proof.
  intro H. unfold py_strip.
  assert (lstrip s = s) as ->.
  { destruct s as [|c r]; simpl in *; [reflexivity|].
    apply andb_prop in H as [H1 _]. destruct (py_isspace c); [discriminate|reflexivity]. }
  apply rstrip_nonspace, H.
Qed.

Lemma lower_strip_of_word (r w : string) :
  py_lower r = w -> all_nonspace w = true -> py_lower (py_strip r) = w.
Proof.
  intros Hr Hw. rewrite strip_nonspace; [exact Hr|].
  rewrite <- all_nonspace_lower, Hr. exact Hw.
Qed.

(** ** C10 *)

(** C10: [normalize_sport] is case-insensitive on the canonical table
    (any casing of "cycling", "bike", "biking" gives "Biking", any casing
    of "running" gives "Running"), maps [None] and "" to "Unknown", maps
    any other non-empty input to its title-cased form, and is idempotent;
    in particular "BIKING" and "Biking" give "Biking", "" gives "Unknown"
    and "Swimming" gives "Swimming".  (Strings are ASCII strings.) *)
Theorem normalize_sport_spec :
  (forall r, str_in (py_lower r) bike_words = true -> normalize_sport (Some r) = "Biking") /\
  (forall r, py_lower r = "running" -> normalize_sport (Some r) = "Running") /\
  normalize_sport None = "Unknown" /\ normalize_sport (Some "") = "Unknown" /\
  (forall r, r <> "" ->
     str_in (py_lower (py_strip r)) (bike_words ++ run_words) = false ->
     normalize_sport (Some r) = py_title r) /\
  (forall x, normalize_sport (Some (normalize_sport x)) = normalize_sport x) /\
  normalize_sport (Some "BIKING") = "Biking" /\
  normalize_sport (Some "Biking") = "Biking" /\
  normalize_sport (Some "Swimming") = "Swimming".
Proof.
  split; [|split; [|split; [reflexivity|split; [reflexivity|split; [|split]]]]].
  - intros r H. unfold normalize_sport.
    unfold bike_words, str_in in H; simpl in H.
    destruct (String.eqb_spec (py_lower r) "cycling") as [E|_];
      [rewrite (lower_strip_of_word r _ E eq_refl); reflexivity|].
    destruct (String.eqb_spec (py_lower r) "bike") as [E|_];
      [rewrite (lower_strip_of_word r _ E eq_refl); reflexivity|].
    destruct (String.eqb_spec (py_lower r) "biking") as [E|_];
      [rewrite (lower_strip_of_word r _ E eq_refl); reflexivity|].
    discriminate.
  - intros r H. unfold normalize_sport.
    rewrite (lower_strip_of_word r _ H eq_refl). reflexivity.
  - intros r Hne H. unfold normalize_sport.
    unfold str_in in H; rewrite existsb_app in H; apply orb_false_elim in H as [H1 H2].
    unfold str_in; rewrite H1, H2.
    destruct (String.eqb_spec r "") as [E|_]; [contradiction|reflexivity].
  - intro x. remember (normalize_sport x) as y eqn:Hy. unfold normalize_sport in Hy.
    set (r := match x with Some r => r | None => "" end) in Hy.
    destruct (str_in (py_lower (py_strip r)) bike_words) eqn:Hb; [subst y; reflexivity|].
    destruct (str_in (py_lower (py_strip r)) run_words) eqn:Hr; [subst y; reflexivity|].
    destruct (String.eqb_spec r "") as [E|Hne]; [subst y; reflexivity|].
    simpl negb in Hy; cbv iota in Hy. subst y.
    unfold normalize_sport. rewrite lower_strip_title, Hb, Hr.
    destruct (String.eqb_spec (py_title r) "") as [E|_].
    + exfalso. exact (title_nonempty r Hne E).
    + simpl. unfold py_title. rewrite title_aux_idem. reflexivity.
  - repeat split; reflexivity.
Qed.

(** ** Dict lemmas *)

Lemma dget_dset (k k' : string) (v : jvalue) (d : dict) :
  dget k (dset k' v d) = if String.eqb k k' then Some v else dget k d.
Proof.
  induction d as [|[k0 v0] r IH]; simpl.
  - reflexivity.
  - destruct (String.eqb_spec k' k0) as [->|Hne]; simpl.
    + destruct (String.eqb k k0); reflexivity.
    + rewrite IH. destruct (String.eqb_spec k k') as [->|]; [|reflexivity].
      destruct (String.eqb_spec k' k0); [contradiction|reflexivity].
Qed.

Lemma dget_setdefault (k k' : string) (v : jvalue) (d : dict) :
  dget k (setdefault k' v d) =
  if String.eqb k k' then Some (match dget k d with Some x => x | None => v end)
  else dget k d.
Proof.
  unfold setdefault.
  destruct (String.eqb_spec k k') as [->|Hne].
  - destruct (dget k' d) eqn:E; [exact E|]. rewrite dget_dset, String.eqb_refl. reflexivity.
  - destruct (dget k' d); [reflexivity|]. rewrite dget_dset.
    destruct (String.eqb_spec k k'); [contradiction|reflexivity].
Qed.

Lemma dget_setdefaults (k : string) (keys : list string) (d : dict) :
  dget k (setdefaults keys d) =
  if existsb (String.eqb k) keys then Some (match dget k d with Some x => x | None => JNull end)
  else dget k d.
Proof.
  unfold setdefaults.
  revert d; induction keys as [|k1 r IH]; intro d; simpl; [reflexivity|].
  rewrite IH, dget_setdefault.
  destruct (String.eqb k k1); simpl.
  - destruct (existsb (String.eqb k) r); [destruct (dget k d); reflexivity|reflexivity].
  - reflexivity.
Qed.

(** ** C4 *)

(** C4 (as amended): for every JSON object on which [load_json_meta]
    returns, the sport field is [normalize_sport] of the input's sport, each
    of the eight keys duration_s, distance_m, calories, avg_hr, max_hr,
    elevation_gain_m, avg_pace_s, cadence holds the input's value or an
    explicit null when the key is missing, every other key keeps the input's
    value (or stays missing), and no coordinate sequence is returned. *)
Theorem load_json_meta_passthrough (l : list (string * jvalue)) (m : dict)
    (pts : option (list point)) :
  load_json_meta (JsonDoc (JObj l)) = Ok (m, pts) ->
  pts = None /\
  (exists s, normalize_sport_j (py_get "sport" (dict_of_pairs l)) = Ok s /\
             dget "sport" m = Some (JStr s)) /\
  (forall k, In k json_default_keys -> dget k m = Some (py_get k (dict_of_pairs l))) /\
  (forall k, k <> "sport" -> ~ In k json_default_keys ->
             dget k m = dget k (dict_of_pairs l)).
Proof.
  unfold load_json_meta.
  destruct (normalize_sport_j (py_get "sport" (dict_of_pairs l))) as [s|e] eqn:Hs;
    cbn [bind]; [|discriminate].
  remember (setdefaults json_default_keys (dset "sport" (JStr s) (dict_of_pairs l))) as meta
    eqn:Hmeta.
  intro H; injection H as <- <-; subst meta.
  split; [reflexivity|]. split; [|split].
  - exists s; split; [reflexivity|].
    rewrite dget_setdefaults. simpl. rewrite dget_dset. reflexivity.
  - intros k Hk. rewrite dget_setdefaults.
    assert (existsb (String.eqb k) json_default_keys = true) as ->.
    { apply existsb_exists. exists k. split; [exact Hk|apply String.eqb_refl]. }
    rewrite dget_dset. unfold py_get.
    destruct (String.eqb_spec k "sport") as [->|_]; [simpl in Hk; intuition discriminate|].
    reflexivity.
  - intros k Hk Hnk. rewrite dget_setdefaults.
    assert (existsb (String.eqb k) json_default_keys = false) as ->.
    { apply Bool.not_true_iff_false. intro E. apply existsb_exists in E as [k' [Hin Heq]].
      apply String.eqb_eq in Heq; subst k'. contradiction. }
    rewrite dget_dset. destruct (String.eqb_spec k "sport"); [contradiction|reflexivity].
Qed.

(** The amended C4 at the input [{"sport": "run"}]. *)
Lemma load_json_meta_passthrough_witness :
  load_json_meta (JsonDoc (JObj [("sport", JStr "run")])) = Ok (json_run_meta, None) /\
  (None = @None (list point) /\
  (exists s, normalize_sport_j (py_get "sport" (dict_of_pairs [("sport", JStr "run")])) = Ok s /\
             dget "sport" json_run_meta = Some (JStr s)) /\
  (forall k, In k json_default_keys ->
             dget k json_run_meta = Some (py_get k (dict_of_pairs [("sport", JStr "run")]))) /\
  (forall k, k <> "sport" -> ~ In k json_default_keys ->
             dget k json_run_meta = dget k (dict_of_pairs [("sport", JStr "run")]))).
Proof.
  split; [reflexivity|].
  apply (load_json_meta_passthrough [("sport", JStr "run")] json_run_meta None).
  reflexivity.
Defined.

(** C4 fails as stated: for [{"sport": "run"}] the sport becomes "Run", not
    "Running", and start_time is not set to an explicit null (the key stays
    missing). *)
Lemma load_json_meta_run_counterexample :
  load_json_meta (JsonDoc (JObj [("sport", JStr "run")])) = Ok (json_run_meta, None) /\
  dget "sport" json_run_meta = Some (JStr "Run") /\
  dget "start_time" json_run_meta = None.
Proof. repeat split. Qed.

(** ** Numbers *)

Lemma round1_Qeq (a b : Q) : a == b -> round1 a = round1 b.
Proof.
  intro H. unfold round1.
  rewrite (Qred_complete (a * 10) (b * 10)); [reflexivity|].
  rewrite H. reflexivity.
Qed.

Lemma Qlt_bool_iff (a b : Q) : Qlt_bool a b = true <-> a < b.
Proof.
  unfold Qlt_bool. rewrite negb_true_iff. split; intro H.
  - apply Qnot_le_lt. intro H'. apply Qle_bool_iff in H'. congruence.
  - destruct (Qle_bool b a) eqn:E; [|reflexivity].
    apply Qle_bool_iff in E. exfalso. exact (Qlt_not_le _ _ H E).
Qed.

Lemma py_float_view (t : txt) (q : Q) : py_float t = Ok q -> q = txt_q t.
Proof. destruct t; simpl; congruence. Qed.

Lemma py_int_view (t : txt) (z : Z) : py_int t = Ok z -> z = txt_z t.
Proof. destruct t; simpl; congruence. Qed.

Lemma mapM_view {A B} (f : A -> result B) (v : A -> B) (l : list A) (bs : list B) :
  (forall a b, f a = Ok b -> b = v a) -> mapM f l = Ok bs -> bs = map v l.
Proof.
  intro Hv. revert bs; induction l as [|a r IH]; intro bs; simpl.
  - congruence.
  - destruct (f a) as [b|e] eqn:Ea; simpl; [|discriminate].
    destruct (mapM f r) as [bs'|e] eqn:Er; simpl; [|discriminate].
    intro H; injection H as <-. rewrite (Hv _ _ Ea), (IH _ eq_refl). reflexivity.
Qed.

Lemma zmax_list_spec (z : Z) (r : list Z) :
  In (zmax_list z r) (z :: r) /\ forall x, In x (z :: r) -> (x <= zmax_list z r)%Z.
Proof.
  unfold zmax_list. revert z; induction r as [|y r IH]; intro z; simpl.
  - split; [left; reflexivity|]. intros x [<-|[]]. lia.
  - destruct (IH (Z.max z y)) as [Hin Hub]. split.
    + destruct Hin as [E|Hin]; [|right; right; exact Hin].
      rewrite <- E. destruct (Z.max_spec z y) as [[_ ->]|[_ ->]]; [right; left|left]; reflexivity.
    + specialize (Hub (Z.max z y) (or_introl eq_refl)) as Hm.
      intros x [Hx|[Hx|Hx]]; [subst x; lia|subst x; lia|].
      apply Hub; right; exact Hx.
Qed.

(** ** The trackpoint loop of [parse_tcx] *)

Lemma tcx_tp_loop (tps : list trackpoint) :
  forall pts0 prev0 g0 pts prev g,
  foldM tcx_tp_step (pts0, prev0, g0) tps = Ok (pts, prev, g) ->
  g == g0 + sum_pos_deltas (opt_list prev0 ++ tcx_alt_samples tps).
Proof.
  induction tps as [|tp r IH]; intros pts0 prev0 g0 pts prev g H; simpl in H.
  - injection H as _ _ <-. destruct prev0; simpl; ring.
  - unfold tcx_tp_step in H at 1.
    destruct (tp_pos tp) as [pos|] eqn:Hp;
      [destruct (tp_time tp) eqn:Ht|];
      [| apply IH in H; rewrite H; unfold tcx_alt_samples; simpl; rewrite Hp, ?Ht; simpl; reflexivity
       | apply IH in H; rewrite H; unfold tcx_alt_samples; simpl; rewrite Hp; simpl; reflexivity].
    destruct (elem_float (pos_lat pos)) as [lat|e]; simpl in H; [|discriminate].
    destruct (elem_float (pos_lon pos)) as [lon|e]; simpl in H; [|discriminate].
    destruct (tp_alt tp) as [ele|] eqn:Ha.
    + destruct (py_float ele) as [e|err] eqn:He; simpl in H; [|discriminate].
      apply IH in H. rewrite H.
      unfold tcx_alt_samples; simpl; rewrite Hp, Ht, Ha; simpl.
      fold (tcx_alt_samples r). rewrite <- (py_float_view _ _ He).
      destruct prev0 as [p|]; simpl; [|ring].
      destruct (tcx_alt_samples r); destruct (Qlt_bool p e); simpl; ring.
    + apply IH in H. rewrite H.
      unfold tcx_alt_samples; simpl; rewrite Hp, Ht, Ha; simpl. reflexivity.
Qed.

(** ** What [parse_tcx] returns when it returns *)

Lemma parse_tcx_ok (path : string) (d : tcx_doc) (m : dict) (o : option (list point)) :
  parse_tcx path (TcxDoc d) = Ok (m, o) ->
  exists raw_sport l0 rest pts,
    doc_laps d = l0 :: rest /\ o = Some pts /\
    m = dupdate [("activityId", JStr (py_basename path));
                 ("sport", JStr (normalize_sport (Some raw_sport)))]
      [("start_time", jopt_str (lap_start l0));
       ("duration_s", JNum (tcx_total_time d));
       ("distance_m", JNum (tcx_distance d));
       ("calories", JNum (inject_Z (tcx_calories d)));
       ("avg_hr", round1_if_truthy
                    (let hrs := tcx_lap_avg_hrs d in
                     match hrs with [] => None | _ => Some (mean_q hrs) end));
       ("max_hr", jopt_z (match tcx_lap_max_hrs d with [] => None | z :: r => Some (zmax_list z r) end));
       ("elevation_gain_m", JNum (round1 (sum_pos_deltas (tcx_alt_samples (doc_trackpoints d)))));
       ("avg_pace_s", round1_if_truthy
                        (if qtruthy (tcx_distance d)
                         then Some (tcx_total_time d / (tcx_distance d / 1000)) else None))].
Proof.
  unfold parse_tcx.
  destruct (doc_activity d) as [sp|]; cbn [bind]; [|discriminate].
  set (raw := match sp with Some s => s | None => "Unknown" end).
  destruct (mapM (fun l => py_float (txt_default (TInt 0) (lap_attr_time l))) (doc_laps d))
    as [times|e] eqn:Ht; cbn [bind]; [|discriminate].
  destruct (mapM (fun l => py_float (txt_default (TInt 0) (lap_attr_dist l))) (doc_laps d))
    as [dists|e] eqn:Hd; cbn [bind]; [|discriminate].
  destruct (mapM (fun l => py_int (txt_default (TInt 0) (lap_cal l))) (doc_laps d))
    as [cals|e] eqn:Hc; cbn [bind]; [|discriminate].
  destruct (mapM py_int (filter_some (map lap_avg_hr (doc_laps d)))) as [avgs|e] eqn:Ha;
    cbn [bind]; [|discriminate].
  destruct (mapM py_int (filter_some (map lap_max_hr (doc_laps d)))) as [maxs|e] eqn:Hm;
    cbn [bind]; [|discriminate].
  destruct (foldM tcx_tp_step ([], None, 0) (doc_trackpoints d)) as [[[pts prev] g]|e] eqn:Hf;
    cbn [bind]; [|discriminate].
  destruct (doc_laps d) as [|l0 rest] eqn:Hl; cbn [bind]; [discriminate|].
  intro H. injection H as Hmeta Ho.
  exists raw, l0, rest, pts. split; [reflexivity|]. split; [symmetry; exact Ho|].
  subst m.
  apply (mapM_view _ _ _ _ (fun a b => py_float_view _ b)) in Ht, Hd.
  apply (mapM_view _ _ _ _ (fun a b => py_int_view _ b)) in Hc, Ha, Hm.
  apply tcx_tp_loop in Hf. simpl in Hf.
  assert (Hg : round1 g = round1 (sum_pos_deltas (tcx_alt_samples (doc_trackpoints d)))).
  { apply round1_Qeq. rewrite Hf. ring. }
  unfold tcx_total_time, tcx_distance, tcx_calories, tcx_lap_avg_hrs, tcx_lap_max_hrs.
  subst times dists cals avgs maxs. rewrite Hl, Hg. reflexivity.
Qed.

(** ** The normalise_strava batch loop *)

Lemma strava_fold (File : Type) ex_tcx ex_gpx ex_fit ex_json (listing : list (string * File)) :
  forall F I O,
  fold_left (strava_step File ex_tcx ex_gpx ex_fit ex_json) listing (F, I, O) =
  ((F ++ strava_features File ex_tcx ex_gpx ex_fit ex_json listing)%list,
   (I ++ strava_records File ex_tcx ex_gpx ex_fit ex_json listing)%list,
   (O ++ strava_failures File ex_tcx ex_gpx ex_fit ex_json listing)%list).
Proof.
  induction listing as [|[fname f] rest IH]; intros F I O; simpl.
  - rewrite !app_nil_r. reflexivity.
  - unfold strava_features, strava_records, strava_failures; simpl.
    destruct (dispatch File ex_tcx ex_gpx ex_fit ex_json fname f) as [[[m pts]|e]|];
      rewrite IH; rewrite <- ?app_assoc; reflexivity.
Qed.

Lemma strava_main_trace (File : Type) ex_tcx ex_gpx ex_fit ex_json
    (listing : list (string * File)) :
  strava_main File ex_tcx ex_gpx ex_fit ex_json listing =
  (strava_failures File ex_tcx ex_gpx ex_fit ex_json listing ++
   [WriteJson OUT_INDEX (JArr (map JObj (strava_records File ex_tcx ex_gpx ex_fit ex_json listing)));
    WriteJson OUT_GEOJSON
      (feature_collection (strava_features File ex_tcx ex_gpx ex_fit ex_json listing));
    PrintWrote (length (strava_records File ex_tcx ex_gpx ex_fit ex_json listing))
               (length (strava_features File ex_tcx ex_gpx ex_fit ex_json listing))])%list.
Proof. unfold strava_main. rewrite strava_fold. reflexivity. Qed.

(** ** The preprocess_tcx batch loop *)

Lemma pre_loop_writes (files : list (string * tcx_input)) :
  forall segs idx out err segs' idx' ev,
  pre_loop files segs idx = (out, err, segs', idx') -> In ev out ->
  exists stem v, ev = WriteJson ("geojson/" ++ stem ++ ".geojson") v \/
                 ev = WriteJson ("metadata/" ++ stem ++ ".json") v.
Proof.
  induction files as [|[stem inp] rest IH]; intros segs idx out err segs' idx' ev H Hin; simpl in H.
  - injection H as <- _ _ _. destruct Hin.
  - destruct (pre_parse_tcx stem inp) as [[meta coords]|e].
    + destruct (length coords <? 2)%nat; [exact (IH _ _ _ _ _ _ _ H Hin)|].
      destruct (pre_loop rest _ _) as [[[o e'] s'] i'] eqn:Hr.
      injection H as <- _ _ _.
      destruct Hin as [<-|[<-|Hin]].
      * exists stem, (pre_feature stem coords). left; reflexivity.
      * exists stem, (JObj meta). right; reflexivity.
      * exact (IH _ _ _ _ _ _ _ Hr Hin).
    + injection H as <- _ _ _. destruct Hin.
Qed.

Lemma pre_loop_raises (files : list (string * tcx_input)) :
  forall segs idx,
  (exists stem inp e, In (stem, inp) files /\ pre_parse_tcx stem inp = Err e) ->
  exists out e segs' idx', pre_loop files segs idx = (out, Some e, segs', idx').
Proof.
  induction files as [|[stem inp] rest IH]; intros segs idx [s [i [e [Hin He]]]]; simpl.
  - destruct Hin.
  - destruct (pre_parse_tcx stem inp) as [[meta coords]|e'] eqn:Hp.
    + destruct Hin as [Heq|Hin].
      { injection Heq as -> ->. congruence. }
      destruct (length coords <? 2)%nat.
      * apply IH. exists s, i, e. split; assumption.
      * destruct (IH (segs ++ [pre_feature stem coords])%list (idx ++ [JObj meta])%list
                    (ex_intro _ s (ex_intro _ i (ex_intro _ e (conj Hin He)))))
          as [o [e2 [s2 [i2 Hr]]]].
        rewrite Hr. eexists _, e2, s2, i2. reflexivity.
    + eexists _, e', segs, idx. reflexivity.
Qed.

Lemma pre_loop_completes (files : list (string * tcx_input)) :
  forall segs idx,
  (forall stem inp, In (stem, inp) files -> exists r, pre_parse_tcx stem inp = Ok r) ->
  exists out, pre_loop files segs idx =
    (out, None, (segs ++ pre_kept_features files)%list, (idx ++ map JObj (pre_kept files))%list).
Proof.
  induction files as [|[stem inp] rest IH]; intros segs idx Hok; simpl.
  - exists []. rewrite !app_nil_r. reflexivity.
  - assert (Hrest : forall s i, In (s, i) rest -> exists r, pre_parse_tcx s i = Ok r)
      by (intros s i H; apply Hok; right; exact H).
    unfold pre_kept, pre_kept_features; simpl. fold (pre_kept rest) (pre_kept_features rest).
    destruct (Hok stem inp (or_introl eq_refl)) as [[meta coords] Hp]. rewrite Hp.
    destruct (length coords <? 2)%nat.
    + exact (IH segs idx Hrest).
    + destruct (IH (segs ++ [pre_feature stem coords])%list (idx ++ [JObj meta])%list Hrest)
        as [o Hr].
      rewrite Hr. eexists. rewrite <- !app_assoc. reflexivity.
Qed.

(** ** C1 *)

(** C1 (as amended): in the normalise_strava batch, the metadata index holds
    exactly one record per file whose extractor returns, in listing order,
    whatever its coordinates, and a feature is added only for a non-empty
    coordinate list; in preprocess_tcx, when every file parses, the index
    holds only the files with at least two coordinates: a file below that
    threshold is left out of both outputs: the run ends by writing the
    feature collection of the kept files' features and the index of their
    records. *)
Theorem batch_records_per_parsed_file :
  (forall (File : Type) ex_tcx ex_gpx ex_fit ex_json (listing : list (string * File)),
     strava_main File ex_tcx ex_gpx ex_fit ex_json listing =
     (strava_failures File ex_tcx ex_gpx ex_fit ex_json listing ++
      [WriteJson OUT_INDEX (JArr (map JObj (strava_records File ex_tcx ex_gpx ex_fit ex_json listing)));
       WriteJson OUT_GEOJSON
         (feature_collection (strava_features File ex_tcx ex_gpx ex_fit ex_json listing));
       PrintWrote (length (strava_records File ex_tcx ex_gpx ex_fit ex_json listing))
                  (length (strava_features File ex_tcx ex_gpx ex_fit ex_json listing))])%list) /\
  (forall files : list (string * tcx_input),
     (forall stem inp, In (stem, inp) files -> exists r, pre_parse_tcx stem inp = Ok r) ->
     exists writes, pre_main files =
       Finished ([Mkdir "geojson"; Mkdir "metadata"] ++ writes ++
         [WriteJson "segments.geojson" (feature_collection (pre_kept_features files));
          WriteJson "activity_index.json" (JArr (map JObj (pre_kept files)));
          PrintProcessed (length (pre_kept_features files));
          Print "Outputs written to segments.geojson and activity_index.json"])%list).
Proof.
  split.
  - intros. apply strava_main_trace.
  - intros files Hok. unfold pre_main.
    destruct (pre_loop_completes files [] [] Hok) as [out Hr]. rewrite Hr.
    exists out. reflexivity.
Qed.

(** C1 fails as stated: preprocess_tcx parses a TCX file with a single
    located trackpoint, and its record is not in the metadata index. *)
Lemma batch_single_point_counterexample :
  (match pre_parse_tcx "one" (TcxDoc one_point_doc) with
   | Ok (_, coords) => length coords | Err _ => 0%nat end) = 1%nat /\
  pre_main [("one", TcxDoc one_point_doc)] =
  Finished [Mkdir "geojson"; Mkdir "metadata";
            WriteJson "segments.geojson" (feature_collection []);
            WriteJson "activity_index.json" (JArr []);
            PrintProcessed 0%nat;
            Print "Outputs written to segments.geojson and activity_index.json"].
Proof. split; reflexivity. Qed.

(** ** C2 *)

(** C2 (as amended): in the normalise_strava batch a file whose extractor
    raises yields the message "Failed to parse <fname>: <cause>", the other
    files are processed, and both the index and the feature collection are
    always written, with the records and features of every file whose
    extractor returns: a failing file adds only its message, and the outputs
    are those of the listing without it. preprocess_tcx has no such
    handling: when a file fails to parse, its main raises and neither merged
    output is written. *)
Theorem batch_failure_isolation :
  (forall (File : Type) ex_tcx ex_gpx ex_fit ex_json (listing : list (string * File))
          fname f e,
     In (fname, f) listing -> dispatch File ex_tcx ex_gpx ex_fit ex_json fname f = Some (Err e) ->
     In (Print ("Failed to parse " ++ fname ++ ": " ++ e))
        (strava_main File ex_tcx ex_gpx ex_fit ex_json listing)) /\
  (forall (File : Type) ex_tcx ex_gpx ex_fit ex_json (listing : list (string * File)),
     strava_main File ex_tcx ex_gpx ex_fit ex_json listing =
     (strava_failures File ex_tcx ex_gpx ex_fit ex_json listing ++
      [WriteJson OUT_INDEX (JArr (map JObj (strava_records File ex_tcx ex_gpx ex_fit ex_json listing)));
       WriteJson OUT_GEOJSON
         (feature_collection (strava_features File ex_tcx ex_gpx ex_fit ex_json listing));
       PrintWrote (length (strava_records File ex_tcx ex_gpx ex_fit ex_json listing))
                  (length (strava_features File ex_tcx ex_gpx ex_fit ex_json listing))])%list) /\
  (forall (File : Type) ex_tcx ex_gpx ex_fit ex_json (before after : list (string * File))
          fname f e,
     dispatch File ex_tcx ex_gpx ex_fit ex_json fname f = Some (Err e) ->
     strava_main File ex_tcx ex_gpx ex_fit ex_json (before ++ (fname, f) :: after) =
     (strava_failures File ex_tcx ex_gpx ex_fit ex_json before ++
      Print ("Failed to parse " ++ fname ++ ": " ++ e) ::
      strava_failures File ex_tcx ex_gpx ex_fit ex_json after ++
      [WriteJson OUT_INDEX
         (JArr (map JObj (strava_records File ex_tcx ex_gpx ex_fit ex_json (before ++ after))));
       WriteJson OUT_GEOJSON
         (feature_collection (strava_features File ex_tcx ex_gpx ex_fit ex_json (before ++ after)));
       PrintWrote (length (strava_records File ex_tcx ex_gpx ex_fit ex_json (before ++ after)))
                  (length (strava_features File ex_tcx ex_gpx ex_fit ex_json (before ++ after)))])%list) /\
  (forall files : list (string * tcx_input),
     (exists stem inp e, In (stem, inp) files /\ pre_parse_tcx stem inp = Err e) ->
     exists out e, pre_main files = Raised out e /\
       forall v, ~ In (WriteJson "segments.geojson" v) out /\
                 ~ In (WriteJson "activity_index.json" v) out).
Proof.
  split; [|split; [|split]].
  - intros File ex_tcx ex_gpx ex_fit ex_json listing fname f e Hin Hd.
    rewrite strava_main_trace. apply in_or_app; left.
    unfold strava_failures. apply in_flat_map. exists (fname, f). split; [exact Hin|].
    simpl. rewrite Hd. left; reflexivity.
  - intros. apply strava_main_trace.
  - intros File ex_tcx ex_gpx ex_fit ex_json before after fname f e Hd.
    rewrite strava_main_trace.
    unfold strava_failures, strava_records, strava_features.
    rewrite !flat_map_app. cbn [flat_map fst snd]. rewrite Hd.
    rewrite <- !app_assoc. reflexivity.
  - intros files Hfail. unfold pre_main.
    destruct (pre_loop_raises files [] [] Hfail) as [out [e [s' [i' Hr]]]].
    rewrite Hr. exists ([Mkdir "geojson"; Mkdir "metadata"] ++ out)%list, e.
    split; [reflexivity|]. intro v.
    split; intro Hin; apply in_app_or in Hin as [Hin|Hin];
      try (simpl in Hin; destruct Hin as [H|[H|[]]]; discriminate H);
      destruct (pre_loop_writes _ _ _ _ _ _ _ _ Hr Hin) as [stem [w [H|H]]];
      injection H as Hp _; simpl in Hp; discriminate Hp.
Qed.

(** C2 fails as stated: in preprocess_tcx a malformed first file aborts the
    run before the well-formed second one is read, and neither merged output
    is written. *)
Lemma batch_malformed_aborts_counterexample :
  pre_main [("bad", TcxMalformed); ("good", TcxDoc two_point_doc)] =
  Raised [Mkdir "geojson"; Mkdir "metadata"] "ParseError".
Proof. reflexivity. Qed.

(** ** What preprocess_tcx's [parse_tcx] returns when it returns *)

Lemma append_if_view {A} (o : option txt) (conv : txt -> result A) (view : txt -> A)
    (l l' : list A) :
  (forall t a, conv t = Ok a -> a = view t) ->
  append_if o conv l = Ok l' -> l' = (l ++ opt_sample view o)%list.
Proof.
  intros Hv. destruct o as [t|]; simpl.
  - destruct (txt_truthy t).
    + destruct (conv t) as [a|e] eqn:Ec; simpl; [|discriminate].
      intro H; injection H as <-. rewrite (Hv _ _ Ec). reflexivity.
    + intro H; injection H as <-. rewrite app_nil_r. reflexivity.
  - intro H; injection H as <-. rewrite app_nil_r. reflexivity.
Qed.

Lemma pre_tp_loop (tps : list trackpoint) :
  forall s s', foldM pre_tp_step s tps = Ok s' ->
  ps_hrs s' = (ps_hrs s ++ pre_hr_samples tps)%list /\
  ps_alts s' = (ps_alts s ++ pre_alt_samples tps)%list /\
  ps_dist s' = ps_dist s /\ ps_sec s' = ps_sec s /\ ps_cal s' = ps_cal s /\
  ps_start s' = ps_start s.
Proof.
  induction tps as [|tp r IH]; intros s s' H; simpl in H.
  - injection H as <-. rewrite !app_nil_r. repeat split.
  - unfold pre_hr_samples, pre_alt_samples; simpl.
    fold (pre_hr_samples r) (pre_alt_samples r).
    unfold pre_tp_step in H at 1. unfold pre_located.
    destruct (tp_lat tp) as [la|]; [destruct (tp_lon tp) as [lo|]|];
      [| apply IH in H; simpl; rewrite ?andb_false_r; exact H
       | apply IH in H; simpl; exact H].
    simpl. destruct (txt_truthy la && txt_truthy lo) eqn:Hl;
      [| apply IH in H; exact H].
    destruct (py_float lo) as [flon|e]; simpl in H; [|discriminate].
    destruct (py_float la) as [flat|e]; simpl in H; [|discriminate].
    destruct (append_if (tp_hr tp) py_int (ps_hrs s)) as [hrs|e] eqn:Eh; simpl in H; [|discriminate].
    destruct (append_if (tp_alt tp) py_float (ps_alts s)) as [alts|e] eqn:Ea; simpl in H; [|discriminate].
    destruct (append_if (tp_cad tp) py_int (ps_cads s)) as [cads|e] eqn:Ec; simpl in H; [|discriminate].
    apply IH in H. simpl in H. destruct H as [H1 [H2 H3]].
    apply (append_if_view _ _ txt_z) in Eh; [|exact py_int_view].
    apply (append_if_view _ _ txt_q) in Ea; [|exact py_float_view].
    rewrite H1, H2, Eh, Ea, <- !app_assoc. split; [reflexivity|split; [reflexivity|exact H3]].
Qed.

Lemma pre_lap_loop (laps : list lap) :
  forall s s', foldM pre_lap_step s laps = Ok s' ->
  ps_hrs s' = (ps_hrs s ++ pre_hr_samples (flat_map lap_tps laps))%list /\
  ps_alts s' = (ps_alts s ++ pre_alt_samples (flat_map lap_tps laps))%list /\
  ps_dist s' == ps_dist s + lap_child_sum lap_dist laps /\
  ps_sec s' == ps_sec s + lap_child_sum lap_time laps /\
  ps_cal s' == ps_cal s + lap_child_sum lap_cal laps.
Proof.
  unfold lap_child_sum.
  induction laps as [|l r IH]; intros s s' H; simpl in H.
  - injection H as <-. simpl. rewrite !app_nil_r.
    repeat split; unfold qsum; simpl; ring.
  - unfold pre_lap_step in H at 1.
    destruct (py_float (txt_default (TInt 0) (lap_dist l))) as [dd|e] eqn:Ed; simpl in H; [|discriminate].
    destruct (py_float (txt_default (TInt 0) (lap_time l))) as [ds|e] eqn:Es; simpl in H; [|discriminate].
    destruct (py_float (txt_default (TInt 0) (lap_cal l))) as [dc|e] eqn:Ec; simpl in H; [|discriminate].
    destruct (foldM pre_tp_step _ (lap_tps l)) as [s1|e] eqn:Et; simpl in H; [|discriminate].
    apply pre_tp_loop in Et. simpl in Et. destruct Et as [T1 [T2 [T3 [T4 [T5 _]]]]].
    apply IH in H. destruct H as [H1 [H2 [H3 [H4 H5]]]].
    apply py_float_view in Ed, Es, Ec.
    change (flat_map lap_tps (l :: r)) with (lap_tps l ++ flat_map lap_tps r)%list.
    unfold pre_hr_samples, pre_alt_samples in *. rewrite !flat_map_app.
    rewrite H1, H2, T1, T2, <- !app_assoc.
    split; [reflexivity|split; [reflexivity|]].
    unfold qsum in *; simpl.
    rewrite H3, H4, H5, T3, T4, T5, Ed, Es, Ec. repeat split; ring.
Qed.

Lemma pre_parse_tcx_ok (stem : string) (d : tcx_doc) (m : dict) (coords : list point) :
  pre_parse_tcx stem (TcxDoc d) = Ok (m, coords) ->
  exists s,
    ps_hrs s = pre_hr_samples (lap_trackpoints d) /\
    ps_alts s = pre_alt_samples (lap_trackpoints d) /\
    ps_dist s == lap_child_sum lap_dist (doc_laps d) /\
    ps_sec s == lap_child_sum lap_time (doc_laps d) /\
    ps_cal s == lap_child_sum lap_cal (doc_laps d) /\
    m = [("activityId", JStr stem);
         ("start_time", jopt_str (ps_start s));
         ("sport", JStr (match doc_activity d with Some (Some sp) => sp | _ => "Other" end));
         ("distance_m", JNum (ps_dist s));
         ("duration_s", JNum (ps_sec s));
         ("avg_hr", jopt_z (match ps_hrs s with [] => None | _ => Some (int_mean (ps_hrs s)) end));
         ("max_hr", jopt_z (match ps_hrs s with [] => None | z :: r => Some (zmax_list z r) end));
         ("avg_pace_s", jopt_q (if Qlt_bool 0 (ps_dist s)
                                then Some (ps_sec s / (ps_dist s / 1000)) else None));
         ("elevation_gain_m", jopt_q (if (1 <? length (ps_alts s))%nat
                                      then Some (np_pos_diff_sum (ps_alts s)) else None));
         ("cadence", jopt_z (match ps_cads s with [] => None | _ => Some (int_mean (ps_cads s)) end));
         ("calories", JNum (ps_cal s))].
Proof.
  unfold pre_parse_tcx.
  destruct (foldM pre_lap_step (mk_pre [] [] [] [] 0 0 0 None) (doc_laps d)) as [s|e] eqn:Hf;
    cbn [bind]; [|discriminate].
  intro H. injection H as Hm _.
  apply pre_lap_loop in Hf. cbn [ps_hrs ps_alts ps_dist ps_sec ps_cal app] in Hf.
  destruct Hf as [H1 [H2 [H3 [H4 H5]]]].
  exists s. split; [exact H1|split; [exact H2|]].
  split; [rewrite H3; ring|split; [rewrite H4; ring|split; [rewrite H5; ring|]]].
  rewrite <- Hm. reflexivity.
Qed.

(** ** Fields of the two TCX extractors *)

Lemma np_diff_pos_sum (l : list Q) : np_pos_diff_sum l == sum_pos_deltas l.
Proof.
  unfold np_pos_diff_sum.
  induction l as [|a r IH]; [reflexivity|].
  destruct r as [|b r']; [reflexivity|].
  change (np_diff (a :: b :: r')) with ((b - a) :: np_diff (b :: r')).
  change (sum_pos_deltas (a :: b :: r'))
    with ((if Qlt_bool a b then b - a else 0) + sum_pos_deltas (b :: r')).
  rewrite <- IH. simpl filter.
  destruct (Qlt_bool a b) eqn:E1; destruct (Qlt_bool 0 (b - a)) eqn:E2.
  - reflexivity.
  - apply Qlt_bool_iff in E1. apply Bool.not_true_iff_false in E2.
    exfalso; apply E2, Qlt_bool_iff. apply Qlt_minus_iff in E1. exact E1.
  - apply Bool.not_true_iff_false in E1. apply Qlt_bool_iff in E2.
    exfalso; apply E1, Qlt_bool_iff. apply Qlt_minus_iff. exact E2.
  - simpl. ring.
Qed.

(** What [parse_tcx] of normalise_strava writes, key by key. *)
Lemma parse_tcx_fields (path : string) (d : tcx_doc) (m : dict) (o : option (list point)) :
  parse_tcx path (TcxDoc d) = Ok (m, o) ->
  dget "duration_s" m = Some (JNum (tcx_total_time d)) /\
  dget "distance_m" m = Some (JNum (tcx_distance d)) /\
  dget "calories" m = Some (JNum (inject_Z (tcx_calories d))) /\
  dget "avg_hr" m = Some (round1_if_truthy
                            (let hrs := tcx_lap_avg_hrs d in
                             match hrs with [] => None | _ => Some (mean_q hrs) end)) /\
  dget "max_hr" m = Some (jopt_z (match tcx_lap_max_hrs d with
                                  | [] => None | z :: r => Some (zmax_list z r) end)) /\
  dget "elevation_gain_m" m =
    Some (JNum (round1 (sum_pos_deltas (tcx_alt_samples (doc_trackpoints d))))) /\
  dget "avg_pace_s" m =
    Some (round1_if_truthy (if qtruthy (tcx_distance d)
                            then Some (tcx_total_time d / (tcx_distance d / 1000)) else None)).
Proof.
  intro H. apply parse_tcx_ok in H as [raw [l0 [rest [pts [_ [_ Hm]]]]]].
  subst m. repeat split.
Qed.

(** What [parse_tcx] of preprocess_tcx writes, key by key. *)
Lemma pre_parse_tcx_fields (stem : string) (d : tcx_doc) (m : dict) (coords : list point) :
  pre_parse_tcx stem (TcxDoc d) = Ok (m, coords) ->
  let hrs := pre_hr_samples (lap_trackpoints d) in
  let alts := pre_alt_samples (lap_trackpoints d) in
  exists dist sec cal,
    dist == lap_child_sum lap_dist (doc_laps d) /\
    sec == lap_child_sum lap_time (doc_laps d) /\
    cal == lap_child_sum lap_cal (doc_laps d) /\
    dget "distance_m" m = Some (JNum dist) /\
    dget "duration_s" m = Some (JNum sec) /\
    dget "calories" m = Some (JNum cal) /\
    dget "avg_hr" m = Some (jopt_z (match hrs with [] => None | _ => Some (int_mean hrs) end)) /\
    dget "max_hr" m = Some (jopt_z (match hrs with [] => None | z :: r => Some (zmax_list z r) end)) /\
    dget "elevation_gain_m" m =
      Some (jopt_q (if (1 <? length alts)%nat then Some (np_pos_diff_sum alts) else None)) /\
    dget "avg_pace_s" m =
      Some (jopt_q (if Qlt_bool 0 dist then Some (sec / (dist / 1000)) else None)).
Proof.
  intro H. apply pre_parse_tcx_ok in H as [s [H1 [H2 [H3 [H4 [H5 Hm]]]]]].
  intros hrs alts. subst m hrs alts. rewrite <- H1, <- H2.
  exists (ps_dist s), (ps_sec s), (ps_cal s).
  split; [exact H3|split; [exact H4|split; [exact H5|]]].
  repeat split.
Qed.

(** ** The FIT record and session loops *)

Lemma dget_dset_other (k k' : string) (v : jvalue) (d : dict) :
  k <> k' -> dget k (dset k' v d) = dget k d.
Proof. intro H. rewrite dget_dset. apply String.eqb_neq in H. rewrite H. reflexivity. Qed.

Lemma dget_dset_same (k : string) (v : jvalue) (d : dict) : dget k (dset k v d) = Some v.
Proof. rewrite dget_dset, String.eqb_refl. reflexivity. Qed.

Lemma fit_rec_step_pts (st : fit_state) (r : fit_record) :
  fs_pts (fit_rec_step st r) = (fs_pts st ++ fit_points [r])%list.
Proof.
  destruct st as [[[[p m] h] pe] g]. unfold fit_rec_step, fit_points. cbn [flat_map].
  destruct (fit_ele r) as [e|];
    destruct (rec_position_lat r) as [la|], (rec_position_long r) as [lo|]; cbn.
  all: rewrite ?app_nil_r; try reflexivity.
  all: destruct (negb (la =? 0)%Z && negb (lo =? 0)%Z); rewrite ?app_nil_r; reflexivity.
Qed.

Ltac split_ifs := repeat match goal with |- context [if ?b then _ else _] => destruct b end.

Lemma fit_rec_step_meta (st : fit_state) (r : fit_record) (k : string) :
  k <> "start_time" -> k <> "distance_m" -> k <> "cadence" ->
  dget k (fs_meta (fit_rec_step st r)) = dget k (fs_meta st).
Proof.
  intros H1 H2 H3. destruct st as [[[[p m] h] pe] g]. unfold fit_rec_step.
  destruct (fit_ele r) as [e|]; cbn;
    destruct (rec_cadence r), (rec_distance r), (rec_timestamp r); split_ifs;
    rewrite ?dget_dset_other by assumption; reflexivity.
Qed.

Lemma fit_rec_step_dist (st : fit_state) (r : fit_record) :
  dget "distance_m" (fs_meta (fit_rec_step st r)) =
  match rec_distance r with
  | Some x => if qtruthy x then Some (JNum x) else dget "distance_m" (fs_meta st)
  | None => dget "distance_m" (fs_meta st)
  end.
Proof.
  destruct st as [[[[p m] h] pe] g]. unfold fit_rec_step.
  destruct (fit_ele r) as [e|]; cbn;
    destruct (rec_cadence r), (rec_distance r), (rec_timestamp r); split_ifs;
    rewrite ?dget_dset_other by discriminate; rewrite ?dget_dset_same;
    rewrite ?dget_dset_other by discriminate; reflexivity.
Qed.

Lemma fit_rec_loop (rs : list fit_record) : forall st : fit_state,
  fs_pts (fold_left fit_rec_step rs st) = (fs_pts st ++ fit_points rs)%list /\
  (forall k, k <> "start_time" -> k <> "distance_m" -> k <> "cadence" ->
     dget k (fs_meta (fold_left fit_rec_step rs st)) = dget k (fs_meta st)) /\
  dget "distance_m" (fs_meta (fold_left fit_rec_step rs st)) =
    match rev (fit_distances rs) with
    | [] => dget "distance_m" (fs_meta st)
    | x :: _ => Some (JNum x)
    end.
Proof.
  induction rs as [|r rs IH]; intro st.
  - cbn. rewrite app_nil_r. split; [reflexivity|split; [reflexivity|reflexivity]].
  - cbn [fold_left]. destruct (IH (fit_rec_step st r)) as [P [M D]].
    split; [|split].
    + rewrite P, fit_rec_step_pts, <- app_assoc. unfold fit_points. cbn [flat_map].
      rewrite app_nil_r. reflexivity.
    + intros k H1 H2 H3. rewrite M, fit_rec_step_meta by assumption. reflexivity.
    + rewrite D, fit_rec_step_dist.
      assert (E : fit_distances (r :: rs) =
                  ((match rec_distance r with
                    | Some x => if qtruthy x then [x] else [] | None => [] end)
                   ++ fit_distances rs)%list).
      { unfold fit_distances, filter_some. cbn [map flat_map].
        destruct (rec_distance r) as [x|]; cbn; [destruct (qtruthy x)|]; reflexivity. }
      rewrite E. destruct (rec_distance r) as [x|]; [destruct (qtruthy x)|]; cbn [app rev];
        destruct (rev (fit_distances rs)); reflexivity.
Qed.

Lemma fit_ses_loop (vs : list fit_session) : forall (meta : dict) (k : string),
  k <> "sport" -> k <> "duration_s" -> k <> "calories" ->
  dget k (fold_left fit_ses_step vs meta) = dget k meta.
Proof.
  induction vs as [|v vs IH]; intros meta k H1 H2 H3; [reflexivity|].
  cbn [fold_left]. rewrite IH by assumption. unfold fit_ses_step.
  destruct (ses_sport v), (ses_total_elapsed_time v), (ses_total_calories v); split_ifs;
    rewrite ?dget_dset_other by assumption; reflexivity.
Qed.

Lemma fit_finish_other (meta : dict) (hrs : list Z) (g : Q) (k : string) :
  k <> "avg_hr" -> k <> "max_hr" -> k <> "elevation_gain_m" -> k <> "avg_pace_s" ->
  dget k (fit_finish meta hrs g) = dget k meta.
Proof.
  intros H1 H2 H3 H4. unfold fit_finish, fit_pace_update, fit_elev_update, fit_hr_update.
  destruct hrs; split_ifs; rewrite ?dget_dset_other by assumption;
    repeat match goal with |- context [match ?x with _ => _ end] =>
      match x with py_get _ _ => destruct x | JNum _ => fail | _ => fail end end;
    split_ifs; rewrite ?dget_dset_other by assumption; reflexivity.
Qed.


(** What [parse_fit] returns on a decoded stream. *)
Lemma parse_fit_ok (path : string) (c : bool) (f : fit_file) :
  exists meta hrs g,
    parse_fit path c (FitDoc f) = Ok (fit_finish meta hrs g, Some (fit_points (fit_records f))) /\
    dget "distance_m" meta =
      Some (match rev (fit_distances (fit_records f)) with [] => JNull | x :: _ => JNum x end) /\
    dget "avg_pace_s" meta = Some JNull.
Proof.
  unfold parse_fit. cbv zeta.
  set (m0 := dset "activityId" (JStr (py_basename path))
               (dict_of_pairs (map (fun k => (k, JNull)) fit_meta_keys))).
  pose proof (fit_rec_loop (fit_records f) ([], m0, [], None, 0)) as [P [M D]].
  destruct (fold_left fit_rec_step (fit_records f) ([], m0, [], None, 0))
    as [[[[pts meta] hrs] pe] g] eqn:E.
  cbn [fs_pts fs_meta app] in P, M, D.
  exists (fold_left fit_ses_step (fit_sessions f) meta), hrs, g.
  split; [rewrite P; reflexivity|split].
  - rewrite fit_ses_loop by discriminate. rewrite D.
    destruct (rev (fit_distances (fit_records f))); reflexivity.
  - rewrite fit_ses_loop, M by discriminate. reflexivity.
Qed.

(** ** C3: the totals of the TCX extractors *)




(** ** C5: heart rate *)

(** C5 (amended): normalise_strava's parse_tcx sets avg_hr to the mean of
    the lap AverageHeartRateBpm values rounded to 1 decimal (null when no lap
    reports one, or when the mean is 0) and max_hr to the largest lap
    MaximumHeartRateBpm value (null when no lap reports one); preprocess_tcx's
    parse_tcx ignores the lap values and sets avg_hr to the truncated mean and
    max_hr to the maximum of the heart-rate samples of the trackpoints inside
    the laps whose LatitudeDegrees and LongitudeDegrees texts are non-empty
    (both null when there is no such sample). *)
Theorem tcx_heart_rate_fields (path stem : string) (d : tcx_doc) :
  (forall m o, parse_tcx path (TcxDoc d) = Ok (m, o) ->
     dget "avg_hr" m =
       Some (match tcx_lap_avg_hrs d with
             | [] => JNull
             | hrs => let a := mean_q hrs in if qtruthy a then JNum (round1 a) else JNull
             end) /\
     dget "max_hr" m =
       Some (match tcx_lap_max_hrs d with
             | [] => JNull
             | z :: r => JNum (inject_Z (zmax_list z r))
             end)) /\
  (forall m coords, pre_parse_tcx stem (TcxDoc d) = Ok (m, coords) ->
     let hrs := pre_hr_samples (lap_trackpoints d) in
     dget "avg_hr" m =
       Some (match hrs with [] => JNull | _ => JNum (inject_Z (int_mean hrs)) end) /\
     dget "max_hr" m =
       Some (match hrs with [] => JNull | z :: r => JNum (inject_Z (zmax_list z r)) end)).
Proof.
  split.
  - intros m o H. apply parse_tcx_fields in H as (_ & _ & _ & Ha & Hm & _).
    rewrite Ha, Hm. cbv zeta.
    destruct (tcx_lap_avg_hrs d), (tcx_lap_max_hrs d); split; reflexivity.
  - intros m coords H hrs. apply pre_parse_tcx_fields in H.
    destruct H as (dist & sec & cal & _ & _ & _ & _ & _ & _ & Ha & Hm & _).
    rewrite Ha, Hm. subst hrs.
    destruct (pre_hr_samples (lap_trackpoints d)); split; reflexivity.
Qed.

(** C5 on [hr_doc], on which both extractors return. *)
Lemma tcx_heart_rate_fields_witness :
  (exists m o, parse_tcx "raw/run.tcx" (TcxDoc hr_doc) = Ok (m, o) /\
     dget "max_hr" m = Some (JNum (inject_Z 170))) /\
  (exists m coords, pre_parse_tcx "run" (TcxDoc hr_doc) = Ok (m, coords) /\
     dget "max_hr" m = Some (JNum (inject_Z 120))).
Proof.
  split.
  - destruct (parse_tcx "raw/run.tcx" (TcxDoc hr_doc)) as [[m o]|e] eqn:E;
      [|vm_compute in E; discriminate E].
    exists m, o. split; [reflexivity|].
    exact (proj2 (proj1 (tcx_heart_rate_fields "raw/run.tcx" "run" hr_doc) m o E)).
  - destruct (pre_parse_tcx "run" (TcxDoc hr_doc)) as [[m coords]|e] eqn:E;
      [|vm_compute in E; discriminate E].
    exists m, coords. split; [reflexivity|].
    exact (proj2 (proj2 (tcx_heart_rate_fields "raw/run.tcx" "run" hr_doc) m coords E)).
Defined.

(** C5 fails as stated: the lap of [hr_doc] reports an average of 150 and a
    maximum of 170, but preprocess_tcx reports avg_hr 110 and max_hr 120,
    from the trackpoints' samples 100 and 120. And on [course_doc], whose
    heart-rate samples lie in a Track outside the laps, preprocess_tcx
    reports null for both. *)
Lemma tcx_heart_rate_counterexample :
  tcx_lap_avg_hrs hr_doc = [150%Z] /\ tcx_lap_max_hrs hr_doc = [170%Z] /\
  num_is "avg_hr" (meta_of (parse_tcx "raw/run.tcx" (TcxDoc hr_doc))) 150 = true /\
  num_is "max_hr" (meta_of (parse_tcx "raw/run.tcx" (TcxDoc hr_doc))) 170 = true /\
  num_is "avg_hr" (meta_of (pre_parse_tcx "run" (TcxDoc hr_doc))) 110 = true /\
  num_is "max_hr" (meta_of (pre_parse_tcx "run" (TcxDoc hr_doc))) 120 = true /\
  map tp_hr (doc_trackpoints course_doc) = [Some (TInt 100); Some (TInt 120)] /\
  null_at "avg_hr" (meta_of (pre_parse_tcx "course" (TcxDoc course_doc))) = true /\
  null_at "max_hr" (meta_of (pre_parse_tcx "course" (TcxDoc course_doc))) = true.
Proof. vm_compute. repeat split. Qed.

(** ** C6: elevation gain *)

(** C6 (amended): both TCX extractors sum the strictly positive differences
    of consecutive altitude samples ([sum_pos_deltas]: descents are not
    subtracted, and each sample becomes the previous one), taking the samples
    only from trackpoints that have a Position: in normalise_strava, every
    Trackpoint of the document that also has a Time; in preprocess_tcx, the
    Trackpoints inside the laps whose two coordinate texts are non-empty. normalise_strava rounds the sum to 1 decimal and reports 0.0 when
    there is no sample; preprocess_tcx does not round it, and reports null
    when there are fewer than 2 samples. The walk 100, 105, 102, 110 gains
    13.0. *)
Theorem tcx_elevation_gain (path stem : string) (d : tcx_doc) :
  (forall m o, parse_tcx path (TcxDoc d) = Ok (m, o) ->
     dget "elevation_gain_m" m =
       Some (JNum (round1 (sum_pos_deltas (tcx_alt_samples (doc_trackpoints d)))))) /\
  (forall m coords, pre_parse_tcx stem (TcxDoc d) = Ok (m, coords) ->
     let alts := pre_alt_samples (lap_trackpoints d) in
     dget "elevation_gain_m" m =
       Some (if (1 <? length alts)%nat then JNum (np_pos_diff_sum alts) else JNull) /\
     np_pos_diff_sum alts == sum_pos_deltas alts) /\
  round1 (sum_pos_deltas [100; 105; 102; 110]) == 13.
Proof.
  split; [|split].
  - intros m o H. apply parse_tcx_fields in H as (_ & _ & _ & _ & _ & He & _). exact He.
  - intros m coords H alts. apply pre_parse_tcx_fields in H.
    destruct H as (dist & sec & cal & _ & _ & _ & _ & _ & _ & _ & _ & He & _).
    split; [|apply np_diff_pos_sum].
    rewrite He. subst alts. destruct (1 <? length _)%nat; reflexivity.
  - reflexivity.
Qed.

(** C6 on [walk_doc], whose trackpoints climb 100, 105, 102, 110. *)
Lemma tcx_elevation_gain_witness :
  (exists m o, parse_tcx "raw/run.tcx" (TcxDoc walk_doc) = Ok (m, o) /\
     dget "elevation_gain_m" m =
       Some (JNum (round1 (sum_pos_deltas (tcx_alt_samples (doc_trackpoints walk_doc)))))) /\
  (exists m coords, pre_parse_tcx "run" (TcxDoc walk_doc) = Ok (m, coords) /\
     np_pos_diff_sum (pre_alt_samples (lap_trackpoints walk_doc)) ==
     sum_pos_deltas (pre_alt_samples (lap_trackpoints walk_doc))).
Proof.
  split.
  - destruct (parse_tcx "raw/run.tcx" (TcxDoc walk_doc)) as [[m o]|e] eqn:E;
      [|vm_compute in E; discriminate E].
    exists m, o. split; [reflexivity|].
    exact (proj1 (tcx_elevation_gain "raw/run.tcx" "run" walk_doc) m o E).
  - destruct (pre_parse_tcx "run" (TcxDoc walk_doc)) as [[m coords]|e] eqn:E;
      [|vm_compute in E; discriminate E].
    exists m, coords. split; [reflexivity|].
    exact (proj2 (proj1 (proj2 (tcx_elevation_gain "raw/run.tcx" "run" walk_doc)) m coords E)).
Defined.

(** C6 fails as stated: for the altitudes 100 and 100.25 of [climb_doc],
    preprocess_tcx reports the unrounded gain 0.25 (normalise_strava reports
    0.2); and a single altitude sample gives null in preprocess_tcx. *)
Lemma tcx_elevation_unrounded_counterexample :
  pre_alt_samples (lap_trackpoints climb_doc) = [inject_Z 100; 401 # 4] /\
  num_is "elevation_gain_m" (meta_of (pre_parse_tcx "run" (TcxDoc climb_doc))) (1 # 4) = true /\
  num_is "elevation_gain_m" (meta_of (parse_tcx "raw/run.tcx" (TcxDoc climb_doc))) (2 # 10) = true /\
  null_at "elevation_gain_m"
    (meta_of (pre_parse_tcx "run"
       (TcxDoc (doc_of [lap_with None None None None None
                          [tp_at 45 7 (Some (TInt 100)); tp_at 46 7 None]])))) = true.
Proof. vm_compute. repeat split. Qed.

(** ** C7: average pace *)




(** ** C8: the FIT distance *)

(** C8 (amended): parse_fit's distance_m is the last non-zero distance
    among the record messages in stream order (each overwrites the previous
    one; nothing is summed); a record whose distance is 0 is skipped like one
    without a distance, and distance_m is null when no record reports a
    non-zero distance. For the distances 100, 250, 200 it is 200. *)
Theorem fit_distance_last_nonzero (path : string) (c : bool) (f : fit_file) :
  dget "distance_m" (meta_of (parse_fit path c (FitDoc f))) =
  Some (match rev (fit_distances (fit_records f)) with [] => JNull | x :: _ => JNum x end).
Proof.
  destruct (parse_fit_ok path c f) as (meta & hrs & g & E & D & _).
  rewrite E. cbn [meta_of]. rewrite fit_finish_other by discriminate. exact D.
Qed.

(** C8 fails as stated: when the last record reports the distance 0, the
    latest reported distance is 0 but parse_fit keeps 250; the spec's own
    example 100, 250, 200 does give 200. *)
Lemma fit_zero_distance_counterexample :
  filter_some (map rec_distance (fit_records (fit_of [fit_dist_rec 100; fit_dist_rec 250;
                                                       fit_dist_rec 0] None))) = [100; 250; 0] /\
  num_is "distance_m"
    (meta_of (parse_fit "raw/a.fit" false
       (FitDoc (fit_of [fit_dist_rec 100; fit_dist_rec 250; fit_dist_rec 0] None)))) 250 = true /\
  num_is "distance_m"
    (meta_of (parse_fit "raw/a.fit" false
       (FitDoc (fit_of [fit_dist_rec 100; fit_dist_rec 250; fit_dist_rec 200] None)))) 200 = true.
Proof. vm_compute. repeat split. Qed.

(** ** C9: semicircles *)

(** C9: parse_fit's coordinates are [[lon * (180 / 2^31), lat * (180 / 2^31)]]
    for each record whose position_lat and position_long are both reported
    and non-zero, in stream order; a raw 0 is false in [if lat and lon], so
    such a record adds no point. The factor 180 / 2^31 is 45 / 2^29
    (2^29 = 536870912), so for a signed 32-bit raw value z the product is
    45 z / 2^29 with |45 z| < 2^53,
    which a double holds exactly; 2^30 semicircles give exactly 90 degrees. *)
Theorem fit_semicircle_conversion (path : string) (c : bool) (f : fit_file) (z : Z) :
  (exists m, parse_fit path c (FitDoc f) = Ok (m, Some (fit_points (fit_records f)))) /\
  semi_to_deg z == inject_Z z * (45 # 536870912) /\
  ((- 2 ^ 31 <= z < 2 ^ 31)%Z -> (Z.abs (45 * z) < 2 ^ 53)%Z) /\
  semi_to_deg (2 ^ 30) == 90.
Proof.
  split; [|split; [|split]].
  - destruct (parse_fit_ok path c f) as (meta & hrs & g & E & _ & _).
    exists (fit_finish meta hrs g). exact E.
  - unfold semi_to_deg, Qeq, Qdiv, Qmult, Qinv. simpl. lia.
  - intros [H1 H2]. apply Z.abs_lt. lia.
  - reflexivity.
Qed.

(** C9 at the raw value 2^30 and at a stream with one such record. *)
Lemma fit_semicircle_conversion_witness :
  (- 2 ^ 31 <= 2 ^ 30 < 2 ^ 31)%Z /\ (Z.abs (45 * 2 ^ 30) < 2 ^ 53)%Z /\
  fit_points (fit_records (fit_of [fit_pos_rec (2 ^ 30) (2 ^ 29)] None)) =
    [(semi_to_deg (2 ^ 29), semi_to_deg (2 ^ 30))].
Proof.
  destruct (fit_semicircle_conversion "raw/a.fit" false
              (fit_of [fit_pos_rec (2 ^ 30) (2 ^ 29)] None) (2 ^ 30)) as (_ & _ & B & _).
  assert (H : (- 2 ^ 31 <= 2 ^ 30 < 2 ^ 31)%Z) by lia.
  split; [exact H|split; [exact (B H)|reflexivity]].
Defined.

(* ================================================================== *)
(** * Further properties of the code *)

(** ** Strings and dicts *)

Lemma str_length_app (p s : string) :
  String.length (p ++ s) = (String.length p + String.length s)%nat.
Proof. induction p as [|c p IH]; simpl; [reflexivity|now rewrite IH]. Qed.

Lemma substring_app_r (p s : string) (k n : nat) :
  substring (String.length p + k) n (p ++ s) = substring k n s.
Proof. induction p as [|c p IH]; simpl; [reflexivity|exact IH]. Qed.

Lemma ends_with_app (p s suf : string) :
  (String.length suf <= String.length s)%nat -> ends_with suf (p ++ s) = ends_with suf s.
Proof.
  intro H. unfold ends_with. rewrite str_length_app.
  replace (String.length p + String.length s - String.length suf)%nat
    with (String.length p + (String.length s - String.length suf))%nat by lia.
  rewrite substring_app_r.
  assert (E1 : (String.length suf <=? String.length p + String.length s)%nat = true)
    by (apply Nat.leb_le; lia).
  assert (E2 : (String.length suf <=? String.length s)%nat = true) by (apply Nat.leb_le; lia).
  rewrite E1, E2. reflexivity.
Qed.

Lemma dget_app (k : string) (a b : dict) :
  dget k (a ++ b)%list = match dget k a with Some v => Some v | None => dget k b end.
Proof.
  induction a as [|[k0 v0] r IH]; simpl; [reflexivity|].
  destruct (String.eqb k k0); [reflexivity|exact IH].
Qed.

Lemma dget_fold_dset (k : string) (l : list (string * jvalue)) : forall d : dict,
  dget k (fold_left (fun d kv => dset (fst kv) (snd kv) d) l d) =
  match dget k (rev l) with Some v => Some v | None => dget k d end.
Proof.
  induction l as [|[k0 v0] l IH]; intro d; [reflexivity|].
  cbn [fold_left rev]. rewrite IH, dget_app, dget_dset. cbn [dget fst snd].
  destruct (dget k (rev l)); [reflexivity|].
  destruct (String.eqb k k0); reflexivity.
Qed.

Lemma dset_keys_in (k : string) (v : jvalue) (d : dict) :
  In k (map fst d) -> map fst (dset k v d) = map fst d.
Proof.
  induction d as [|[k0 v0] r IH]; simpl; [contradiction|].
  intro H. destruct (String.eqb_spec k k0) as [->|Hne]; simpl; [reflexivity|].
  rewrite IH; [reflexivity|]. destruct H; [congruence|assumption].
Qed.

Lemma dset_keys_notin (k : string) (v : jvalue) (d : dict) :
  ~ In k (map fst d) -> map fst (dset k v d) = (map fst d ++ [k])%list.
Proof.
  induction d as [|[k0 v0] r IH]; simpl; [reflexivity|].
  intro H. destruct (String.eqb_spec k k0) as [->|Hne]; [exfalso; apply H; left; reflexivity|].
  simpl. rewrite IH; [reflexivity|]. intro H'; apply H; right; exact H'.
Qed.

Lemma dset_nodup (k : string) (v : jvalue) (d : dict) :
  NoDup (map fst d) -> NoDup (map fst (dset k v d)).
Proof.
  intro H. destruct (in_dec string_dec k (map fst d)) as [Hi|Hi].
  - rewrite dset_keys_in by exact Hi. exact H.
  - rewrite dset_keys_notin by exact Hi.
    apply NoDup_app; [exact H|constructor; [intros []|constructor]|].
    intros x Hx [<-|[]]. contradiction.
Qed.

Lemma dset_in_keys (k k' : string) (v : jvalue) (d : dict) :
  In k' (map fst (dset k v d)) <-> In k' (map fst d) \/ k' = k.
Proof.
  destruct (in_dec string_dec k (map fst d)) as [Hi|Hi].
  - rewrite dset_keys_in by exact Hi. split; [now left|intros [H| ->]; assumption].
  - rewrite dset_keys_notin by exact Hi. rewrite in_app_iff. simpl.
    split; intros [H|H]; auto; destruct H; auto; contradiction.
Qed.

Lemma setdefault_keys (k : string) (v : jvalue) (d : dict) :
  map fst (setdefault k v d) = map fst (dset k (match dget k d with Some x => x | None => v end) d).
Proof.
  unfold setdefault. destruct (dget k d) eqn:E; [|reflexivity].
  rewrite dset_keys_in; [reflexivity|].
  clear v. induction d as [|[k0 v0] r IH]; simpl in *; [discriminate|].
  destruct (String.eqb_spec k k0); [left; congruence|right; apply IH; exact E].
Qed.

Lemma fold_dset_nodup (l : list (string * jvalue)) : forall d : dict,
  NoDup (map fst d) -> NoDup (map fst (fold_left (fun d kv => dset (fst kv) (snd kv) d) l d)).
Proof.
  induction l as [|kv l IH]; intros d H; [exact H|]. cbn [fold_left]. apply IH, dset_nodup, H.
Qed.

Lemma fold_dset_keys (l : list (string * jvalue)) : forall (d : dict) (k : string),
  In k (map fst (fold_left (fun d kv => dset (fst kv) (snd kv) d) l d)) <->
  In k (map fst d) \/ In k (map fst l).
Proof.
  induction l as [|[k0 v0] l IH]; intros d k; cbn [fold_left map fst In].
  - tauto.
  - rewrite IH, dset_in_keys. cbn [fst]. intuition congruence.
Qed.

Lemma setdefaults_nodup (keys : list string) : forall d : dict,
  NoDup (map fst d) -> NoDup (map fst (setdefaults keys d)).
Proof.
  induction keys as [|k keys IH]; intros d H; [exact H|].
  unfold setdefaults; cbn [fold_left]. apply IH.
  rewrite setdefault_keys. apply dset_nodup, H.
Qed.

Lemma setdefaults_keys (keys : list string) : forall (d : dict) (k : string),
  In k (map fst (setdefaults keys d)) <-> In k (map fst d) \/ In k keys.
Proof.
  induction keys as [|k0 keys IH]; intros d k; [simpl; tauto|].
  unfold setdefaults; cbn [fold_left]. fold (setdefaults keys (setdefault k0 JNull d)).
  rewrite IH, setdefault_keys, dset_in_keys. simpl. intuition congruence.
Qed.

(** ** [load_json_meta] *)

Lemma dict_of_pairs_get (k : string) (l : list (string * jvalue)) :
  dget k (dict_of_pairs l) = dget k (rev l).
Proof.
  unfold dict_of_pairs. rewrite dget_fold_dset. destruct (dget k (rev l)); reflexivity.
Qed.

(** The dict [load_json_meta] returns has no repeated key; its keys are
    those of the JSON object, "sport" and the eight defaulted keys; any
    other key holds the value of its last occurrence in the object. *)
Theorem load_json_meta_keys (l : list (string * jvalue)) (m : dict)
    (pts : option (list point)) :
  load_json_meta (JsonDoc (JObj l)) = Ok (m, pts) ->
  NoDup (map fst m) /\
  (forall k, In k (map fst m) <-> In k (map fst l) \/ k = "sport" \/ In k json_default_keys) /\
  (forall k, k <> "sport" -> ~ In k json_default_keys -> dget k m = dget k (rev l)).
Proof.
  unfold load_json_meta.
  destruct (normalize_sport_j (py_get "sport" (dict_of_pairs l))) as [s|e];
    cbn [bind]; [|discriminate].
  remember (setdefaults json_default_keys (dset "sport" (JStr s) (dict_of_pairs l))) as meta
    eqn:Hmeta.
  intro H; injection H as <- <-; subst meta. split; [|split].
  - apply setdefaults_nodup, dset_nodup. unfold dict_of_pairs.
    apply fold_dset_nodup. constructor.
  - intro k. rewrite setdefaults_keys, dset_in_keys. unfold dict_of_pairs.
    rewrite fold_dset_keys. simpl. tauto.
  - intros k Hk Hd. rewrite dget_setdefaults.
    destruct (existsb (String.eqb k) json_default_keys) eqn:E.
    + exfalso. apply Hd. apply existsb_exists in E as [x [Hx Ex]].
      apply String.eqb_eq in Ex. subst x. exact Hx.
    + rewrite dget_dset_other by exact Hk. apply dict_of_pairs_get.
Qed.

(** A JSON document that is not an object, or whose "sport" (last
    occurrence) is truthy but not a string, makes [load_json_meta] raise. *)
Theorem load_json_meta_errors :
  (forall v, (forall l, v <> JObj l) ->
     exists e, load_json_meta (JsonDoc v) = Err e) /\
  (forall l v, dget "sport" (rev l) = Some v -> jtruthy v = true ->
     (forall s, v <> JStr s) ->
     load_json_meta (JsonDoc (JObj l)) = Err "AttributeError: object has no attribute 'strip'").
Proof.
  split.
  - intros v Hv. destruct v as [| | | | |l]; try (eexists; reflexivity).
    exfalso; exact (Hv l eq_refl).
  - intros l v Hg Ht Hs. unfold load_json_meta, py_get.
    rewrite dict_of_pairs_get, Hg. unfold normalize_sport_j. rewrite Ht.
    destruct v; try reflexivity. exfalso; exact (Hs _ eq_refl).
Qed.

(** ** The normalise_strava batch loop *)

Lemma substring_full (s : string) : substring 0 (String.length s) s = s.
Proof. induction s as [|c s IH]; simpl; [reflexivity|now rewrite IH]. Qed.

Lemma substring_split (s : string) : forall n : nat,
  (n <= String.length s)%nat ->
  s = (substring 0 n s ++ substring n (String.length s - n) s)%string.
Proof.
  induction s as [|c s IH]; intros [|n] Hn; simpl in *.
  - reflexivity.
  - lia.
  - now rewrite substring_full.
  - f_equal. apply IH. lia.
Qed.

Lemma ends_with_inv (suf s : string) :
  ends_with suf s = true ->
  s = (substring 0 (String.length s - String.length suf) s ++ suf)%string.
Proof.
  unfold ends_with. intro H. apply andb_prop in H as [Hl He].
  apply Nat.leb_le in Hl. apply String.eqb_eq in He.
  rewrite (substring_split s (String.length s - String.length suf)) at 1 by lia.
  replace (String.length s - (String.length s - String.length suf))%nat
    with (String.length suf) by lia.
  now rewrite He.
Qed.

Lemma ends_with_fit_gz_json (p : string) : ends_with ".fit.gz" (p ++ ".json") = false.
Proof.
  destruct (ends_with ".fit.gz" (p ++ ".json")) eqn:E; [|reflexivity].
  apply ends_with_inv in E.
  remember (substring 0 _ (p ++ ".json")) as q eqn:Hq. clear Hq.
  assert (H : ends_with "z" (p ++ ".json") = ends_with "z" (q ++ ".fit.gz")) by now rewrite E at 1.
  rewrite !ends_with_app in H by (simpl; lia). discriminate H.
Qed.

(** [main] of normalise_strava.py routes a file by the suffix of its
    lower-cased name: ".tcx", ".gpx", ".fit", ".fit.gz" and ".json" go to
    [parse_tcx], [parse_gpx], [parse_fit] (unzipping only for ".fit.gz")
    and [load_json_meta], each with the path "raw/" + name. *)
Theorem dispatch_by_suffix (File : Type) ex_tcx ex_gpx ex_fit ex_json
    (fname p : string) (f : File) :
  let d := dispatch File ex_tcx ex_gpx ex_fit ex_json fname f in
  let path := ("raw/" ++ fname)%string in
  (py_lower fname = (p ++ ".tcx")%string -> d = Some (ex_tcx path f)) /\
  (py_lower fname = (p ++ ".gpx")%string -> d = Some (ex_gpx path f)) /\
  (py_lower fname = (p ++ ".fit")%string -> d = Some (ex_fit path false f)) /\
  (py_lower fname = (p ++ ".fit.gz")%string -> d = Some (ex_fit path true f)) /\
  (py_lower fname = (p ++ ".json")%string -> d = Some (ex_json path f)).
Proof.
  intros d path. subst d path. unfold dispatch.
  repeat split; intro H; rewrite H; rewrite ?ends_with_fit_gz_json;
    rewrite ?ends_with_app by (simpl; lia); reflexivity.
Qed.

Lemma dispatch_by_suffix_witness :
  py_lower "RIDE.FIT.GZ" = ("ride" ++ ".fit.gz")%string /\
  dispatch unit (fun _ _ => Err "tcx") (fun _ _ => Err "gpx")
    (fun _ gz _ => Err (if gz then "fit.gz" else "fit")) (fun _ _ => Err "json")
    "RIDE.FIT.GZ" tt = Some (Err "fit.gz").
Proof.
  split; [reflexivity|].
  destruct (dispatch_by_suffix unit (fun _ _ => Err "tcx") (fun _ _ => Err "gpx")
    (fun _ gz _ => Err (if gz then "fit.gz" else "fit")) (fun _ _ => Err "json")
    "RIDE.FIT.GZ" "ride" tt) as [_ [_ [_ [H _]]]].
  exact (H eq_refl).
Defined.

(** A file whose name has none of the five suffixes is skipped: removing it
    from the listing changes neither the messages nor the two files written. *)
Theorem strava_main_skips_unknown (File : Type) ex_tcx ex_gpx ex_fit ex_json
    (l1 l2 : list (string * File)) (fname : string) (f : File) :
  dispatch File ex_tcx ex_gpx ex_fit ex_json fname f = None ->
  strava_main File ex_tcx ex_gpx ex_fit ex_json (l1 ++ (fname, f) :: l2) =
  strava_main File ex_tcx ex_gpx ex_fit ex_json (l1 ++ l2).
Proof.
  intro H. rewrite !strava_main_trace.
  unfold strava_failures, strava_records, strava_features.
  rewrite !flat_map_app. cbn [flat_map fst snd]. rewrite H. reflexivity.
Qed.

Lemma strava_main_skips_unknown_witness :
  dispatch unit (fun _ _ => Err "tcx") (fun _ _ => Err "gpx") (fun _ _ _ => Err "fit")
    (fun _ _ => Err "json") "notes.txt" tt = None /\
  strava_main unit (fun _ _ => Err "tcx") (fun _ _ => Err "gpx") (fun _ _ _ => Err "fit")
    (fun _ _ => Err "json") ([("a.gpx", tt)] ++ ("notes.txt", tt) :: [("b.json", tt)]) =
  strava_main unit (fun _ _ => Err "tcx") (fun _ _ => Err "gpx") (fun _ _ _ => Err "fit")
    (fun _ _ => Err "json") ([("a.gpx", tt)] ++ [("b.json", tt)]).
Proof.
  split; [reflexivity|].
  apply strava_main_skips_unknown. reflexivity.
Defined.

(** ** The two [parse_tcx] functions *)

Lemma tcx_tp_loop_pts (tps : list trackpoint) :
  forall pts0 prev0 g0 pts prev g,
  foldM tcx_tp_step (pts0, prev0, g0) tps = Ok (pts, prev, g) ->
  pts = (pts0 ++ tcx_points tps)%list.
Proof.
  induction tps as [|tp r IH]; intros pts0 prev0 g0 pts prev g H; simpl in H.
  - injection H as <- _ _. now rewrite app_nil_r.
  - unfold tcx_tp_step in H at 1. unfold tcx_points; cbn [flat_map]; fold (tcx_points r).
    destruct (tp_pos tp) as [pos|];
      [destruct (tp_time tp)|]; [| apply IH in H; exact H | apply IH in H; exact H].
    destruct (pos_lat pos) as [la|]; cbn [elem_float bind] in H; [|discriminate].
    destruct (py_float la) as [lat|e] eqn:Hla; cbn [bind] in H; [|discriminate].
    destruct (pos_lon pos) as [lo|]; cbn [elem_float bind] in H; [|discriminate].
    destruct (py_float lo) as [lon|e] eqn:Hlo; cbn [bind] in H; [|discriminate].
    rewrite (py_float_view _ _ Hla), (py_float_view _ _ Hlo) in H.
    destruct (tp_alt tp) as [ele|].
    + destruct (py_float ele) as [e|err]; cbn [bind] in H; [|discriminate].
      apply IH in H. rewrite H, <- app_assoc. reflexivity.
    + apply IH in H. rewrite H, <- app_assoc. reflexivity.
Qed.

Lemma foldM_err_at {S A} (f : S -> A -> result S) (a : A) (l : list A) :
  In a l -> (forall s, exists e, f s a = Err e) ->
  forall s, exists e, foldM f s l = Err e.
Proof.
  intros Hin Hf. induction l as [|b r IH]; [destruct Hin|]. intro s. simpl.
  destruct Hin as [->|Hin].
  - destruct (Hf s) as [e ->]. exists e. reflexivity.
  - destruct (f s b) as [s'|e]; cbn [bind]; [apply IH, Hin|exists e; reflexivity].
Qed.

(** normalise_strava's [parse_tcx] raises when the document has no
    Activity element (the [.get] on [None]); it never returns for a
    document with no Lap; and when such a document has an Activity and no
    Trackpoint with both a Position and a Time, the exception is the
    [laps[0]] lookup's IndexError. *)
Theorem parse_tcx_structure_errors (path : string) (d : tcx_doc) :
  (doc_activity d = None ->
   parse_tcx path (TcxDoc d) = Err "AttributeError: 'NoneType' object has no attribute 'get'") /\
  (doc_laps d = [] -> exists e, parse_tcx path (TcxDoc d) = Err e) /\
  (doc_activity d <> None -> doc_laps d = [] ->
   forallb (fun tp => negb (tcx_tp_used tp)) (doc_trackpoints d) = true ->
   parse_tcx path (TcxDoc d) = Err "IndexError: list index out of range").
Proof.
  split; [|split].
  - intro H. unfold parse_tcx. rewrite H. reflexivity.
  - intro Hl. unfold parse_tcx.
    destruct (doc_activity d) as [sp|]; [|eexists; reflexivity].
    rewrite Hl. destruct (foldM tcx_tp_step _ _) as [[[pts prev] g]|e]; simpl;
      eexists; reflexivity.
  - intros Ha Hl Hu. unfold parse_tcx.
    destruct (doc_activity d) as [sp|]; [|contradiction]. rewrite Hl.
    cbn [mapM map filter_some bind].
    assert (F : foldM tcx_tp_step ([], None, 0) (doc_trackpoints d) = Ok ([], None, 0)).
    { induction (doc_trackpoints d) as [|tp r IH]; [reflexivity|].
      cbn [forallb] in Hu. apply andb_true_iff in Hu as [H1 H2].
      cbn [foldM]. unfold tcx_tp_used in H1. unfold tcx_tp_step at 1.
      destruct (tp_pos tp); [destruct (tp_time tp); [discriminate|]|]; cbn [bind]; apply IH, H2. }
    rewrite F. reflexivity.
Qed.

(** A trackpoint that has a Position and a Time but lacks its
    LatitudeDegrees or LongitudeDegrees element makes normalise_strava's
    [parse_tcx] raise for the whole file. *)
Theorem parse_tcx_missing_coordinate (path : string) (d : tcx_doc) (tp : trackpoint)
    (pos : position) :
  In tp (doc_trackpoints d) -> tp_pos tp = Some pos -> tp_time tp = true ->
  (pos_lat pos = None \/ pos_lon pos = None) ->
  exists e, parse_tcx path (TcxDoc d) = Err e.
Proof.
  intros Hin Hp Ht Hm.
  assert (Hf : forall s, exists e, foldM tcx_tp_step s (doc_trackpoints d) = Err e).
  { apply (foldM_err_at _ tp); [exact Hin|].
    intros [[pts prev] g]. unfold tcx_tp_step. rewrite Hp, Ht.
    destruct Hm as [Hm|Hm]; rewrite Hm; cbn [elem_float bind];
      [eexists; reflexivity|].
    destruct (elem_float (pos_lat pos)); cbn [bind]; eexists; reflexivity. }
  unfold parse_tcx.
  destruct (doc_activity d); cbn [bind]; [|eexists; reflexivity].
  destruct (mapM _ (doc_laps d)); cbn [bind]; [|eexists; reflexivity].
  destruct (mapM _ (doc_laps d)); cbn [bind]; [|eexists; reflexivity].
  destruct (mapM _ (doc_laps d)); cbn [bind]; [|eexists; reflexivity].
  destruct (mapM _ (filter_some _)); cbn [bind]; [|eexists; reflexivity].
  destruct (mapM _ (filter_some _)); cbn [bind]; [|eexists; reflexivity].
  destruct (Hf ([], None, 0)) as [e ->]. exists e. reflexivity.
Qed.

Lemma pre_tp_loop_coords (tps : list trackpoint) :
  forall s s', foldM pre_tp_step s tps = Ok s' ->
  ps_coords s' = (ps_coords s ++ pre_points tps)%list /\ ps_start s' = ps_start s.
Proof.
  induction tps as [|tp r IH]; intros s s' H; simpl in H.
  - injection H as <-. rewrite app_nil_r. split; reflexivity.
  - unfold pre_points; cbn [flat_map]; fold (pre_points r).
    unfold pre_tp_step in H at 1. unfold pre_located.
    destruct (tp_lat tp) as [la|]; [destruct (tp_lon tp) as [lo|]|];
      [| apply IH in H; simpl; rewrite ?andb_false_r; exact H
       | apply IH in H; simpl; exact H].
    simpl. destruct (txt_truthy la && txt_truthy lo) eqn:Hl;
      [| apply IH in H; exact H].
    destruct (py_float lo) as [flon|e] eqn:Elo; simpl in H; [|discriminate].
    destruct (py_float la) as [flat|e] eqn:Ela; simpl in H; [|discriminate].
    destruct (append_if (tp_hr tp) py_int (ps_hrs s)); simpl in H; [|discriminate].
    destruct (append_if (tp_alt tp) py_float (ps_alts s)); simpl in H; [|discriminate].
    destruct (append_if (tp_cad tp) py_int (ps_cads s)); simpl in H; [|discriminate].
    apply IH in H. simpl in H. destruct H as [H1 H2].
    rewrite H1, (py_float_view _ _ Elo), (py_float_view _ _ Ela), <- app_assoc.
    split; [reflexivity|exact H2].
Qed.

Lemma pre_lap_loop_coords (laps : list lap) :
  forall s s', foldM pre_lap_step s laps = Ok s' ->
  ps_coords s' = (ps_coords s ++ pre_points (flat_map lap_tps laps))%list /\
  ps_start s' = match ps_start s with
                | Some x => Some x
                | None => first_some (map lap_start laps)
                end.
Proof.
  induction laps as [|l r IH]; intros s s' H; simpl in H.
  - injection H as <-. rewrite app_nil_r. split; [reflexivity|].
    destruct (ps_start s); reflexivity.
  - unfold pre_lap_step in H at 1.
    destruct (py_float (txt_default (TInt 0) (lap_dist l))); simpl in H; [|discriminate].
    destruct (py_float (txt_default (TInt 0) (lap_time l))); simpl in H; [|discriminate].
    destruct (py_float (txt_default (TInt 0) (lap_cal l))); simpl in H; [|discriminate].
    destruct (foldM pre_tp_step _ (lap_tps l)) as [s1|e] eqn:Et; simpl in H; [|discriminate].
    apply pre_tp_loop_coords in Et. simpl in Et. destruct Et as [T1 T2].
    apply IH in H. destruct H as [H1 H2].
    change (flat_map lap_tps (l :: r)) with (lap_tps l ++ flat_map lap_tps r)%list.
    unfold pre_points in *. rewrite flat_map_app, H1, T1, <- app_assoc.
    split; [reflexivity|]. rewrite H2, T2.
    destruct (ps_start s); [reflexivity|].
    unfold first_some, filter_some. cbn [map flat_map].
    destruct (lap_start l); reflexivity.
Qed.

(** What normalise_strava's [parse_tcx] returns: the [[lon, lat]] pairs of
    the trackpoints that have a Position and a Time, in document order, and
    a record with exactly ten keys (no "cadence"), whose "activityId" is the
    file's base name, whose "sport" is the normalised Sport attribute
    ("Unknown" when absent) and whose "start_time" is the first lap's
    StartTime. *)
Theorem parse_tcx_record_shape (path : string) (d : tcx_doc) (m : dict)
    (o : option (list point)) :
  parse_tcx path (TcxDoc d) = Ok (m, o) ->
  o = Some (tcx_points (doc_trackpoints d)) /\
  map fst m = ["activityId"; "sport"; "start_time"; "duration_s"; "distance_m";
               "calories"; "avg_hr"; "max_hr"; "elevation_gain_m"; "avg_pace_s"] /\
  dget "activityId" m = Some (JStr (py_basename path)) /\
  dget "sport" m = Some (JStr (normalize_sport (Some
     (match doc_activity d with Some (Some s) => s | _ => "Unknown" end)))) /\
  dget "start_time" m =
    Some (match doc_laps d with l0 :: _ => jopt_str (lap_start l0) | [] => JNull end).
Proof.
  unfold parse_tcx.
  destruct (doc_activity d) as [sp|]; cbn [bind]; [|discriminate].
  destruct (mapM _ (doc_laps d)); cbn [bind]; [|discriminate].
  destruct (mapM _ (doc_laps d)); cbn [bind]; [|discriminate].
  destruct (mapM _ (doc_laps d)); cbn [bind]; [|discriminate].
  destruct (mapM _ (filter_some _)); cbn [bind]; [|discriminate].
  destruct (mapM _ (filter_some _)); cbn [bind]; [|discriminate].
  destruct (foldM tcx_tp_step ([], None, 0) (doc_trackpoints d)) as [[[pts prev] g]|e] eqn:Hf;
    cbn [bind]; [|discriminate].
  apply tcx_tp_loop_pts in Hf.
  destruct (doc_laps d) as [|l0 rest]; cbn [bind]; [discriminate|].
  intro H. injection H as <- <-. rewrite Hf.
  split; [reflexivity|]. split; [reflexivity|].
  split; [reflexivity|]. split; [|reflexivity].
  destruct sp; reflexivity.
Qed.

(** What preprocess_tcx's [parse_tcx] returns: the [[lon, lat]] pairs of
    the trackpoints inside the laps whose two coordinate texts are non-empty
    (a Trackpoint outside every Lap, as in a Course's Track, is never read),
    and a record
    with exactly eleven keys, whose "sport" is the raw Sport attribute
    ("Other" when absent, never normalised) and whose "start_time" is the
    first StartTime present among the laps. *)
Theorem pre_parse_tcx_record_shape (stem : string) (d : tcx_doc) (m : dict)
    (coords : list point) :
  pre_parse_tcx stem (TcxDoc d) = Ok (m, coords) ->
  coords = pre_points (lap_trackpoints d) /\
  map fst m = ["activityId"; "start_time"; "sport"; "distance_m"; "duration_s"; "avg_hr";
               "max_hr"; "avg_pace_s"; "elevation_gain_m"; "cadence"; "calories"] /\
  dget "activityId" m = Some (JStr stem) /\
  dget "sport" m =
    Some (JStr (match doc_activity d with Some (Some s) => s | _ => "Other" end)) /\
  dget "start_time" m = Some (jopt_str (first_some (map lap_start (doc_laps d)))).
Proof.
  unfold pre_parse_tcx.
  destruct (foldM pre_lap_step (mk_pre [] [] [] [] 0 0 0 None) (doc_laps d)) as [s|e] eqn:Hf;
    cbn [bind]; [|discriminate].
  apply pre_lap_loop_coords in Hf. cbn [ps_coords ps_start app] in Hf. destruct Hf as [H1 H2].
  intro H. injection H as <- <-.
  split; [exact H1|]. split; [reflexivity|]. split; [reflexivity|].
  split; [reflexivity|]. cbn. rewrite H2. reflexivity.
Qed.

(** A TCX document with no Lap: preprocess_tcx's [parse_tcx] returns a
    record of zero totals and null fields with no coordinates, where
    normalise_strava's raises (see [parse_tcx_structure_errors]). *)
Theorem pre_parse_tcx_no_laps (stem : string) (d : tcx_doc) :
  doc_laps d = [] ->
  pre_parse_tcx stem (TcxDoc d) =
    Ok ([("activityId", JStr stem); ("start_time", JNull);
         ("sport", JStr (match doc_activity d with Some (Some s) => s | _ => "Other" end));
         ("distance_m", JNum 0); ("duration_s", JNum 0); ("avg_hr", JNull);
         ("max_hr", JNull); ("avg_pace_s", JNull); ("elevation_gain_m", JNull);
         ("cadence", JNull); ("calories", JNum 0)], []).
Proof. intro H. unfold pre_parse_tcx. rewrite H. reflexivity. Qed.

(** ** [parse_fit] *)

Lemma py_get_dset_other (k k' : string) (v : jvalue) (d : dict) :
  k <> k' -> py_get k (dset k' v d) = py_get k d.
Proof. intro H. unfold py_get. rewrite dget_dset_other by exact H. reflexivity. Qed.

Lemma dset_keys_fixed (ks : list string) (k : string) (v : jvalue) (d : dict) :
  map fst d = ks -> In k ks -> map fst (dset k v d) = ks.
Proof. intros <- H. apply dset_keys_in, H. Qed.

Ltac keys_fixed :=
  repeat (apply dset_keys_fixed; [|simpl; tauto]).

Lemma qtruthy_inject_Z (z : Z) : qtruthy (inject_Z z) = negb (Z.eqb z 0).
Proof. destruct z; reflexivity. Qed.

Lemma qtruthy_Qeq (a b : Q) : a == b -> qtruthy a = qtruthy b.
Proof.
  intro H. unfold qtruthy. f_equal.
  destruct (Qeq_bool a 0) eqn:Ea, (Qeq_bool b 0) eqn:Eb; try reflexivity.
  - apply Qeq_bool_iff in Ea. apply Qeq_bool_neq in Eb. exfalso. apply Eb. rewrite <- H. exact Ea.
  - apply Qeq_bool_iff in Eb. apply Qeq_bool_neq in Ea. exfalso. apply Ea. rewrite H. exact Eb.
Qed.

Lemma first_some_cons_some {A} (x : A) (l : list (option A)) :
  first_some (Some x :: l) = Some x.
Proof. reflexivity. Qed.

Lemma first_some_cons_none {A} (l : list (option A)) :
  first_some (None :: l) = first_some l.
Proof. reflexivity. Qed.

Lemma fit_rec_step_hrs (st : fit_state) (r : fit_record) :
  fs_hrs (fit_rec_step st r) = (fs_hrs st ++ fit_hrs [r])%list.
Proof.
  destruct st as [[[[p m] h] pe] g]. unfold fit_rec_step, fit_hrs, filter_some.
  cbn [map flat_map]. destruct (fit_ele r); cbn;
    destruct (rec_heart_rate r) as [z|]; cbn; [|rewrite app_nil_r; reflexivity| |rewrite app_nil_r; reflexivity];
    destruct (negb (z =? 0)%Z); rewrite ?app_nil_r; reflexivity.
Qed.

Lemma fit_rec_step_elev (st : fit_state) (r : fit_record) :
  fs_prev (fit_rec_step st r) = match fit_ele r with Some e => Some e | None => fs_prev st end /\
  fs_gain (fit_rec_step st r) =
    match fit_ele r, fs_prev st with
    | Some e, Some p => if Qlt_bool p e then fs_gain st + (e - p) else fs_gain st
    | _, _ => fs_gain st
    end.
Proof.
  destruct st as [[[[p m] h] pe] g]. unfold fit_rec_step.
  destruct (fit_ele r) as [e|]; cbn; [destruct pe|]; split; reflexivity.
Qed.

Lemma fit_rec_step_cadence (st : fit_state) (r : fit_record) :
  dget "cadence" (fs_meta (fit_rec_step st r)) =
  match rec_cadence r with
  | Some c => if negb (Z.eqb c 0) then Some (JNum (inject_Z c)) else dget "cadence" (fs_meta st)
  | None => dget "cadence" (fs_meta st)
  end.
Proof.
  destruct st as [[[[p m] h] pe] g]. unfold fit_rec_step.
  destruct (fit_ele r) as [e|]; cbn;
    destruct (rec_cadence r), (rec_distance r), (rec_timestamp r); split_ifs;
    rewrite ?dget_dset_same; rewrite ?dget_dset_other by discriminate; reflexivity.
Qed.

Lemma fit_rec_step_start (st : fit_state) (r : fit_record) :
  dget "start_time" (fs_meta (fit_rec_step st r)) =
  match rec_timestamp r with
  | Some ts => if jtruthy (py_get "start_time" (fs_meta st)) then dget "start_time" (fs_meta st)
               else Some (JStr ts)
  | None => dget "start_time" (fs_meta st)
  end.
Proof.
  destruct st as [[[[p m] h] pe] g]. unfold fit_rec_step. cbn [fs_meta].
  remember (jtruthy (py_get "start_time" m)) as b eqn:Hb.
  destruct (fit_ele r) as [e|]; cbn [fs_meta];
    destruct (rec_cadence r), (rec_distance r), (rec_timestamp r);
    destruct b; cbn [negb]; split_ifs;
    rewrite ?dget_dset_other by discriminate; rewrite ?dget_dset_same; reflexivity.
Qed.

Lemma fit_rec_step_keys (st : fit_state) (r : fit_record) :
  map fst (fs_meta st) = fit_meta_keys -> map fst (fs_meta (fit_rec_step st r)) = fit_meta_keys.
Proof.
  destruct st as [[[[p m] h] pe] g]. unfold fit_rec_step. cbn [fs_meta]. intro H.
  destruct (fit_ele r) as [e|]; cbn;
    destruct (rec_cadence r), (rec_distance r), (rec_timestamp r); split_ifs; keys_fixed;
    exact H.
Qed.

Lemma fit_rec_loop_more (rs : list fit_record) : forall st : fit_state,
  let st' := fold_left fit_rec_step rs st in
  fs_hrs st' = (fs_hrs st ++ fit_hrs rs)%list /\
  fs_gain st' == fs_gain st + sum_pos_deltas (opt_list (fs_prev st) ++ fit_eles rs) /\
  dget "cadence" (fs_meta st') =
    match rev (fit_cadences rs) with
    | [] => dget "cadence" (fs_meta st)
    | c :: _ => Some (JNum (inject_Z c))
    end /\
  (map fst (fs_meta st) = fit_meta_keys -> map fst (fs_meta st') = fit_meta_keys).
Proof.
  induction rs as [|r rs IH]; intro st; cbv zeta.
  - cbn. rewrite app_nil_r. split; [reflexivity|split; [|split; [reflexivity|tauto]]].
    destruct (fs_prev st); simpl; ring.
  - cbn [fold_left]. destruct (IH (fit_rec_step st r)) as [H [G [C K]]].
    split; [|split; [|split]].
    + rewrite H, fit_rec_step_hrs, <- app_assoc. f_equal.
      change (r :: rs) with ([r] ++ rs)%list. unfold fit_hrs, filter_some.
      rewrite map_app, flat_map_app, filter_app. reflexivity.
    + rewrite G. destruct (fit_rec_step_elev st r) as [Ep Eg]. rewrite Ep, Eg.
      unfold fit_eles, filter_some. cbn [map flat_map].
      fold (filter_some (map fit_ele rs)). fold (fit_eles rs).
      destruct (fit_ele r) as [e|]; destruct (fs_prev st) as [p|]; cbn [opt_list app].
      * destruct (fit_eles rs); simpl; destruct (Qlt_bool p e); ring.
      * destruct (fit_eles rs); simpl; ring.
      * reflexivity.
      * reflexivity.
    + rewrite C, fit_rec_step_cadence.
      assert (E : fit_cadences (r :: rs) =
                  ((match rec_cadence r with
                    | Some c => if negb (Z.eqb c 0) then [c] else [] | None => [] end)
                   ++ fit_cadences rs)%list).
      { unfold fit_cadences, filter_some. cbn [map flat_map].
        destruct (rec_cadence r) as [c|]; cbn; [destruct (negb (c =? 0)%Z)|]; reflexivity. }
      rewrite E. destruct (rec_cadence r) as [c|]; [destruct (negb (c =? 0)%Z)|]; cbn [app rev];
        destruct (rev (fit_cadences rs)); reflexivity.
    + intro Hk. apply K, fit_rec_step_keys, Hk.
Qed.

Lemma fit_rec_loop_start (rs : list fit_record) : forall st : fit_state,
  (forall r, In r rs -> rec_timestamp r <> Some "") ->
  (dget "start_time" (fs_meta st) = Some JNull ->
   dget "start_time" (fs_meta (fold_left fit_rec_step rs st)) =
     Some (jopt_str (first_some (map rec_timestamp rs)))) /\
  (forall s, s <> "" -> dget "start_time" (fs_meta st) = Some (JStr s) ->
   dget "start_time" (fs_meta (fold_left fit_rec_step rs st)) = Some (JStr s)).
Proof.
  induction rs as [|r rs IH]; intros st Hts.
  - split; [intro H; exact H|intros s _ H; exact H].
  - cbn [fold_left map].
    assert (Hts' : forall r', In r' rs -> rec_timestamp r' <> Some "")
      by (intros r' Hr'; apply Hts; right; exact Hr').
    destruct (IH (fit_rec_step st r) Hts') as [IH1 IH2].
    split.
    + intro H0. pose proof (fit_rec_step_start st r) as S.
      unfold py_get in S. rewrite H0 in S. cbn [jtruthy] in S.
      destruct (rec_timestamp r) as [ts|] eqn:Et.
      * rewrite first_some_cons_some. apply IH2; [|exact S].
        intro E; subst ts. exact (Hts r (or_introl eq_refl) Et).
      * rewrite first_some_cons_none. apply IH1. exact S.
    + intros s Hs H0. apply IH2; [exact Hs|].
      rewrite fit_rec_step_start. unfold py_get. rewrite H0. cbn [jtruthy].
      apply String.eqb_neq in Hs. rewrite Hs. cbn [negb].
      destruct (rec_timestamp r); reflexivity.
Qed.

Lemma normalize_sport_nonempty (x : option string) : normalize_sport x <> "".
Proof.
  unfold normalize_sport.
  destruct (str_in _ bike_words); [discriminate|].
  destruct (str_in _ run_words); [discriminate|].
  destruct (String.eqb_spec (match x with Some r => r | None => "" end) "") as [E|E];
    cbn [negb]; [discriminate|]. apply title_nonempty, E.
Qed.

(** A key of the session loop that only the first truthy value sets. *)
Lemma fold_first_wins {X} (step : dict -> X -> dict) (k : string) (sel : X -> option jvalue) :
  (forall meta v, dget k (step meta v) =
     match sel v with
     | Some x => if jtruthy (py_get k meta) then dget k meta else Some x
     | None => dget k meta
     end) ->
  (forall v x, sel v = Some x -> jtruthy x = true) ->
  forall vs meta,
  (jtruthy (py_get k meta) = true -> dget k (fold_left step vs meta) = dget k meta) /\
  (dget k meta = Some JNull ->
   dget k (fold_left step vs meta) = Some (match first_some (map sel vs) with
                                           | Some x => x | None => JNull end)).
Proof.
  intros Hstep Htr. induction vs as [|v vs IH]; intro meta; [split; [reflexivity|intro H; exact H]|].
  cbn [fold_left map]. destruct (IH (step meta v)) as [IH1 IH2]. split.
  - intro Ht. rewrite IH1; [rewrite Hstep, Ht; destruct (sel v); reflexivity|].
    unfold py_get at 1. rewrite Hstep, Ht. destruct (sel v); exact Ht.
  - intro H0. assert (Hp : py_get k meta = JNull) by (unfold py_get; rewrite H0; reflexivity).
    destruct (sel v) as [x|] eqn:Es.
    + rewrite first_some_cons_some.
      assert (Hx : dget k (step meta v) = Some x) by (rewrite Hstep, Es, Hp; reflexivity).
      rewrite IH1; [exact Hx|]. unfold py_get. rewrite Hx. exact (Htr v x Es).
    + rewrite first_some_cons_none. apply IH2. rewrite Hstep, Es. exact H0.
Qed.

Lemma first_some_map {A B C} (g : A -> B) (h : C -> option A) (l : list C) :
  first_some (map (fun x => option_map g (h x)) l) = option_map g (first_some (map h l)).
Proof.
  induction l as [|x l IH]; [reflexivity|]. cbn [map].
  destruct (h x); [reflexivity|]. cbn [option_map]. rewrite !first_some_cons_none. exact IH.
Qed.

Lemma fit_ses_step_sport (meta : dict) (v : fit_session) :
  dget "sport" (fit_ses_step meta v) =
  match option_map (fun s => JStr (normalize_sport (Some s))) (ses_sport_truthy v) with
  | Some x => if jtruthy (py_get "sport" meta) then dget "sport" meta else Some x
  | None => dget "sport" meta
  end.
Proof.
  unfold fit_ses_step, ses_sport_truthy.
  remember (jtruthy (py_get "sport" meta)) as b eqn:Hb.
  destruct (ses_sport v) as [sp|]; cbn [sopt_truthy option_map];
    [destruct (String.eqb sp "") eqn:Hs; cbn [negb andb option_map]|];
    destruct b; cbn [negb andb];
    destruct (ses_total_elapsed_time v), (ses_total_calories v); split_ifs;
    rewrite ?dget_dset_other by discriminate; rewrite ?dget_dset_same; reflexivity.
Qed.

Lemma fit_ses_step_duration (meta : dict) (v : fit_session) :
  dget "duration_s" (fit_ses_step meta v) =
  match option_map JNum (ses_time_truthy v) with
  | Some x => if jtruthy (py_get "duration_s" meta) then dget "duration_s" meta else Some x
  | None => dget "duration_s" meta
  end.
Proof.
  unfold fit_ses_step, ses_time_truthy.
  remember (jtruthy (py_get "duration_s" meta)) as b eqn:Hb.
  destruct (ses_sport v) as [sp|]; [destruct (sopt_truthy (Some sp) && negb (jtruthy (py_get "sport" meta)))|];
    rewrite ?py_get_dset_other by discriminate; rewrite <- Hb;
    destruct (ses_total_elapsed_time v) as [t|]; cbn [option_map];
    [destruct (qtruthy t)| |destruct (qtruthy t)| |destruct (qtruthy t)|];
    destruct b; cbn [negb andb option_map];
    destruct (ses_total_calories v); split_ifs;
    rewrite ?dget_dset_other by discriminate; rewrite ?dget_dset_same;
    rewrite ?dget_dset_other by discriminate; reflexivity.
Qed.

Lemma fit_ses_step_calories (meta : dict) (v : fit_session) :
  dget "calories" (fit_ses_step meta v) =
  match option_map (fun c => JNum (inject_Z c)) (ses_cal_truthy v) with
  | Some x => if jtruthy (py_get "calories" meta) then dget "calories" meta else Some x
  | None => dget "calories" meta
  end.
Proof.
  unfold fit_ses_step, ses_cal_truthy. cbv zeta.
  remember (jtruthy (py_get "calories" meta)) as b eqn:Hb.
  destruct (ses_sport v) as [sp|];
    [match goal with |- context [if ?c then dset "sport" _ _ else _] => destruct c end|];
    destruct (ses_total_elapsed_time v) as [t|];
    try match goal with |- context [if ?c then dset "duration_s" _ _ else _] => destruct c end;
    rewrite ?py_get_dset_other by discriminate; rewrite <- Hb;
    destruct (ses_total_calories v) as [c|]; cbn [option_map zopt_truthy];
    try (destruct (c =? 0)%Z); cbn [negb andb option_map];
    destruct b; cbn [negb andb option_map];
    rewrite ?dget_dset_same; rewrite ?dget_dset_other by discriminate; reflexivity.
Qed.

Lemma fit_ses_step_keys (meta : dict) (v : fit_session) :
  map fst meta = fit_meta_keys -> map fst (fit_ses_step meta v) = fit_meta_keys.
Proof.
  intro H. unfold fit_ses_step. cbv zeta.
  destruct (ses_sport v), (ses_total_elapsed_time v), (ses_total_calories v); split_ifs;
    keys_fixed; exact H.
Qed.

Lemma fit_ses_loop_keys (vs : list fit_session) : forall meta : dict,
  map fst meta = fit_meta_keys -> map fst (fold_left fit_ses_step vs meta) = fit_meta_keys.
Proof.
  induction vs as [|v vs IH]; intros meta H; [exact H|]. apply IH, fit_ses_step_keys, H.
Qed.

Lemma fit_pace_update_other (meta : dict) (k : string) :
  k <> "avg_pace_s" -> dget k (fit_pace_update meta) = dget k meta.
Proof.
  intro H. unfold fit_pace_update.
  destruct (py_get "distance_m" meta), (py_get "duration_s" meta); split_ifs;
    rewrite ?dget_dset_other by exact H; reflexivity.
Qed.

Lemma fit_finish_keys (meta : dict) (hrs : list Z) (g : Q) :
  map fst meta = fit_meta_keys -> map fst (fit_finish meta hrs g) = fit_meta_keys.
Proof.
  intro H. unfold fit_finish, fit_pace_update, fit_elev_update, fit_hr_update.
  destruct hrs; split_ifs;
    repeat match goal with |- context [match ?x with _ => _ end] =>
      match x with py_get _ _ => destruct x | _ => fail end end;
    split_ifs; keys_fixed; exact H.
Qed.

Lemma fit_finish_hr (meta : dict) (hrs : list Z) (g : Q) :
  dget "avg_hr" (fit_finish meta hrs g) =
    match hrs with [] => dget "avg_hr" meta | _ => Some (JNum (round1 (mean_q hrs))) end /\
  dget "max_hr" (fit_finish meta hrs g) =
    match hrs with [] => dget "max_hr" meta | h :: r => Some (JNum (inject_Z (zmax_list h r))) end.
Proof.
  unfold fit_finish. rewrite !fit_pace_update_other by discriminate.
  unfold fit_elev_update, fit_hr_update.
  destruct hrs; split_ifs; rewrite ?dget_dset_other by discriminate;
    rewrite ?dget_dset_same; rewrite ?dget_dset_other by discriminate; rewrite ?dget_dset_same;
    split; reflexivity.
Qed.

Lemma fit_finish_elev (meta : dict) (hrs : list Z) (g : Q) :
  dget "elevation_gain_m" (fit_finish meta hrs g) =
    if qtruthy g then Some (JNum (round1 g)) else dget "elevation_gain_m" meta.
Proof.
  unfold fit_finish. rewrite !fit_pace_update_other by discriminate.
  unfold fit_elev_update, fit_hr_update.
  destruct (qtruthy g); rewrite ?dget_dset_same; [reflexivity|].
  destruct hrs; rewrite ?dget_dset_other by discriminate; reflexivity.
Qed.

(** The metadata dict [parse_fit] starts from. *)
Lemma parse_fit_unfold (path : string) (c : bool) (f : fit_file) :
  let m0 := dset "activityId" (JStr (py_basename path))
              (dict_of_pairs (map (fun k => (k, JNull)) fit_meta_keys)) in
  let st := fold_left fit_rec_step (fit_records f) ([], m0, [], None, 0) in
  parse_fit path c (FitDoc f) =
    Ok (fit_finish (fold_left fit_ses_step (fit_sessions f) (fs_meta st)) (fs_hrs st) (fs_gain st),
        Some (fs_pts st)).
Proof.
  cbv zeta. unfold parse_fit. cbv zeta.
  destruct (fold_left fit_rec_step (fit_records f) _) as [[[[p m] h] pe] g]. reflexivity.
Qed.

(** When [parse_fit] returns, its record has the eleven keys of its
    initial dict, in their initial order, with "activityId" the file's base
    name, and the coordinates are a list (possibly empty), never None. *)
Theorem parse_fit_keys (path : string) (c : bool) (f : fit_file) (m : dict)
    (o : option (list point)) :
  parse_fit path c (FitDoc f) = Ok (m, o) ->
  o <> None /\
  map fst m = ["activityId"; "sport"; "start_time"; "duration_s"; "distance_m";
               "calories"; "avg_hr"; "max_hr"; "elevation_gain_m"; "avg_pace_s"; "cadence"] /\
  dget "activityId" m = Some (JStr (py_basename path)).
Proof.
  rewrite parse_fit_unfold. cbv zeta. intro H. injection H as <- <-.
  split; [discriminate|].
  set (m0 := dset "activityId" (JStr (py_basename path))
               (dict_of_pairs (map (fun k => (k, JNull)) fit_meta_keys))).
  split.
  - apply fit_finish_keys, fit_ses_loop_keys.
    destruct (fit_rec_loop_more (fit_records f) ([], m0, [], None, 0)) as [_ [_ [_ K]]].
    apply K. reflexivity.
  - rewrite fit_finish_other by discriminate. rewrite fit_ses_loop by discriminate.
    destruct (fit_rec_loop (fit_records f) ([], m0, [], None, 0)) as [_ [M _]].
    rewrite M by discriminate. reflexivity.
Qed.

(** The "start_time" of a [parse_fit] record is the ISO text of the first
    record message that has a timestamp, and null when none has one (an
    ISO timestamp is never empty). *)
Theorem parse_fit_start_time (path : string) (c : bool) (f : fit_file) :
  (forall r, In r (fit_records f) -> rec_timestamp r <> Some "") ->
  dget "start_time" (meta_of (parse_fit path c (FitDoc f))) =
    Some (jopt_str (first_some (map rec_timestamp (fit_records f)))).
Proof.
  intro Hts. rewrite parse_fit_unfold. cbv zeta. cbn [meta_of].
  rewrite fit_finish_other by discriminate. rewrite fit_ses_loop by discriminate.
  apply (fit_rec_loop_start (fit_records f) _ Hts). reflexivity.
Qed.

(** Of the session messages, the first with a non-empty sport sets "sport"
    (normalised), the first with a non-zero total_elapsed_time sets
    "duration_s" and the first with non-zero total_calories sets "calories";
    each stays null when no session has one. *)
Theorem parse_fit_session_first_wins (path : string) (c : bool) (f : fit_file) :
  let m := meta_of (parse_fit path c (FitDoc f)) in
  let vs := fit_sessions f in
  dget "sport" m =
    Some (match first_some (map ses_sport_truthy vs) with
          | Some s => JStr (normalize_sport (Some s)) | None => JNull end) /\
  dget "duration_s" m = Some (jopt_q (first_some (map ses_time_truthy vs))) /\
  dget "calories" m = Some (jopt_z (first_some (map ses_cal_truthy vs))).
Proof.
  cbv zeta. rewrite parse_fit_unfold. cbv zeta. cbn [meta_of].
  rewrite !fit_finish_other by discriminate.
  set (m0 := dset "activityId" (JStr (py_basename path))
               (dict_of_pairs (map (fun k => (k, JNull)) fit_meta_keys))).
  destruct (fit_rec_loop (fit_records f) ([], m0, [], None, 0)) as [_ [M _]].
  set (m1 := fs_meta (fold_left fit_rec_step (fit_records f) ([], m0, [], None, 0))).
  split; [|split].
  - destruct (fold_first_wins fit_ses_step "sport"
                (fun v => option_map (fun s => JStr (normalize_sport (Some s))) (ses_sport_truthy v))
                fit_ses_step_sport) with (vs := fit_sessions f) (meta := m1) as [_ F].
    + intros v x E. destruct (ses_sport_truthy v); cbn in E; [|discriminate].
      injection E as <-. cbn. apply negb_true_iff, String.eqb_neq, normalize_sport_nonempty.
    + rewrite F; [|unfold m1; rewrite M by discriminate; reflexivity].
      rewrite (first_some_map (fun s => JStr (normalize_sport (Some s))) ses_sport_truthy).
      destruct (first_some (map ses_sport_truthy (fit_sessions f))); reflexivity.
  - destruct (fold_first_wins fit_ses_step "duration_s"
                (fun v => option_map JNum (ses_time_truthy v))
                fit_ses_step_duration) with (vs := fit_sessions f) (meta := m1) as [_ F].
    + intros v x E. unfold ses_time_truthy in E.
      destruct (ses_total_elapsed_time v) as [t|]; [|discriminate].
      destruct (qtruthy t) eqn:Et; [|discriminate]. injection E as <-. exact Et.
    + rewrite F; [|unfold m1; rewrite M by discriminate; reflexivity].
      rewrite (first_some_map JNum ses_time_truthy).
      destruct (first_some (map ses_time_truthy (fit_sessions f))); reflexivity.
  - destruct (fold_first_wins fit_ses_step "calories"
                (fun v => option_map (fun c => JNum (inject_Z c)) (ses_cal_truthy v))
                fit_ses_step_calories) with (vs := fit_sessions f) (meta := m1) as [_ F].
    + intros v x E. unfold ses_cal_truthy in E.
      destruct (ses_total_calories v) as [z|]; [|discriminate].
      destruct (Z.eqb_spec z 0) as [|Hz]; [discriminate|]. injection E as <-.
      cbn [jtruthy]. rewrite qtruthy_inject_Z. apply Z.eqb_neq in Hz. rewrite Hz. reflexivity.
    + rewrite F; [|unfold m1; rewrite M by discriminate; reflexivity].
      rewrite (first_some_map (fun c => JNum (inject_Z c)) ses_cal_truthy).
      destruct (first_some (map ses_cal_truthy (fit_sessions f))); reflexivity.
Qed.

(** "avg_hr" is the mean of the non-zero heart rates of the record messages
    rounded to one decimal, and "max_hr" their maximum; both stay null when
    no record has a non-zero heart rate. *)
Theorem parse_fit_heart_rate (path : string) (c : bool) (f : fit_file) :
  let m := meta_of (parse_fit path c (FitDoc f)) in
  let hrs := fit_hrs (fit_records f) in
  dget "avg_hr" m = Some (match hrs with [] => JNull | _ => JNum (round1 (mean_q hrs)) end) /\
  dget "max_hr" m = Some (match hrs with [] => JNull | h :: r => JNum (inject_Z (zmax_list h r)) end).
Proof.
  cbv zeta. rewrite parse_fit_unfold. cbv zeta. cbn [meta_of].
  set (m0 := dset "activityId" (JStr (py_basename path))
               (dict_of_pairs (map (fun k => (k, JNull)) fit_meta_keys))).
  destruct (fit_rec_loop (fit_records f) ([], m0, [], None, 0)) as [_ [M _]].
  destruct (fit_rec_loop_more (fit_records f) ([], m0, [], None, 0)) as [H _].
  cbv zeta in H. cbn [fs_hrs app] in H.
  destruct (fit_finish_hr (fold_left fit_ses_step (fit_sessions f)
              (fs_meta (fold_left fit_rec_step (fit_records f) ([], m0, [], None, 0))))
              (fs_hrs (fold_left fit_rec_step (fit_records f) ([], m0, [], None, 0)))
              (fs_gain (fold_left fit_rec_step (fit_records f) ([], m0, [], None, 0))))
    as [A X].
  rewrite A, X, H. rewrite !fit_ses_loop, !M by discriminate.
  destruct (fit_hrs (fit_records f)); split; reflexivity.
Qed.

(** "elevation_gain_m" is the sum of the rises between consecutive altitude
    samples (enhanced_altitude when non-zero, else altitude), rounded to one
    decimal; it stays null when that sum is 0 (no rise at all). *)
Theorem parse_fit_elevation_gain (path : string) (c : bool) (f : fit_file) :
  let g := sum_pos_deltas (fit_eles (fit_records f)) in
  dget "elevation_gain_m" (meta_of (parse_fit path c (FitDoc f))) =
    Some (if qtruthy g then JNum (round1 g) else JNull).
Proof.
  cbv zeta. rewrite parse_fit_unfold. cbv zeta. cbn [meta_of].
  set (m0 := dset "activityId" (JStr (py_basename path))
               (dict_of_pairs (map (fun k => (k, JNull)) fit_meta_keys))).
  destruct (fit_rec_loop (fit_records f) ([], m0, [], None, 0)) as [_ [M _]].
  destruct (fit_rec_loop_more (fit_records f) ([], m0, [], None, 0)) as [_ [G _]].
  cbv zeta in G. cbn [fs_gain fs_prev opt_list app] in G.
  assert (G' : fs_gain (fold_left fit_rec_step (fit_records f) ([], m0, [], None, 0)) ==
               sum_pos_deltas (fit_eles (fit_records f))) by (rewrite G; ring).
  rewrite fit_finish_elev, (qtruthy_Qeq _ _ G'), (round1_Qeq _ _ G').
  rewrite fit_ses_loop, M by discriminate.
  destruct (qtruthy _); reflexivity.
Qed.

(** "cadence" is the last non-zero cadence of the record messages, null
    when there is none. *)
Theorem parse_fit_cadence (path : string) (c : bool) (f : fit_file) :
  dget "cadence" (meta_of (parse_fit path c (FitDoc f))) =
    Some (match rev (fit_cadences (fit_records f)) with
          | [] => JNull | z :: _ => JNum (inject_Z z) end).
Proof.
  rewrite parse_fit_unfold. cbv zeta. cbn [meta_of].
  set (m0 := dset "activityId" (JStr (py_basename path))
               (dict_of_pairs (map (fun k => (k, JNull)) fit_meta_keys))).
  destruct (fit_rec_loop_more (fit_records f) ([], m0, [], None, 0)) as [_ [_ [C _]]].
  cbv zeta in C.
  rewrite fit_finish_other, fit_ses_loop, C by discriminate.
  destruct (rev (fit_cadences (fit_records f))); reflexivity.
Qed.

(** ** [parse_gpx] *)

Lemma gpx_points_concat {A} (f : gpx_point -> A) (tracks : list (list (list gpx_point))) :
  flat_map (fun tr => flat_map (fun seg => map f seg) tr) tracks =
  map f (concat (concat tracks)).
Proof.
  induction tracks as [|tr tracks IH]; [reflexivity|].
  cbn [flat_map concat]. rewrite concat_app, map_app, IH. f_equal.
  clear IH. induction tr as [|seg tr IH]; [reflexivity|].
  cbn [flat_map concat]. rewrite map_app, IH. reflexivity.
Qed.

(** [parse_gpx] raises when the first track, its first segment or that
    segment's first point is missing, or when that point has no time,
    whatever the other tracks hold. *)
Theorem parse_gpx_start_errors (path : string) (g : gpx_doc) :
  (gpx_tracks g = [] ->
     parse_gpx path (GpxDoc g) = Err "IndexError: list index out of range") /\
  (forall rest, gpx_tracks g = [] :: rest ->
     parse_gpx path (GpxDoc g) = Err "IndexError: list index out of range") /\
  (forall segs rest, gpx_tracks g = ([] :: segs) :: rest ->
     parse_gpx path (GpxDoc g) = Err "IndexError: list index out of range") /\
  (forall p ps segs rest, gpx_tracks g = ((p :: ps) :: segs) :: rest -> gpx_time p = None ->
     parse_gpx path (GpxDoc g) =
       Err "AttributeError: 'NoneType' object has no attribute 'isoformat'").
Proof.
  unfold parse_gpx, gpx_start.
  split; [|split; [|split]]; intros *; intro H; rewrite H; [reflexivity..|].
  intro Ht. rewrite Ht. reflexivity.
Qed.

Lemma parse_gpx_start_errors_witness :
  parse_gpx "raw/a.gpx" (GpxDoc (gpx_of [[[]; [gpt 45 7 (Some "2024-05-01T07:00:00Z")]]])) =
    Err "IndexError: list index out of range" /\
  parse_gpx "raw/a.gpx" (GpxDoc (gpx_of [[[gpt 45 7 None; gpt 46 7 (Some "2024-05-01T07:00:00Z")]]])) =
    Err "AttributeError: 'NoneType' object has no attribute 'isoformat'".
Proof.
  destruct (parse_gpx_start_errors "raw/a.gpx"
              (gpx_of [[[]; [gpt 45 7 (Some "2024-05-01T07:00:00Z")]]])) as [_ [_ [E _]]].
  destruct (parse_gpx_start_errors "raw/a.gpx"
              (gpx_of [[[gpt 45 7 None; gpt 46 7 (Some "2024-05-01T07:00:00Z")]]]))
    as [_ [_ [_ T]]].
  split; [exact (E _ _ eq_refl)|exact (T _ _ _ _ eq_refl eq_refl)].
Defined.

(** What [parse_gpx] returns: every point of every segment of every track,
    in order, as [[lon, lat]]; a record with ten keys whose "start_time" is
    the time of the first point, whose "sport" is "Running" when "run"
    occurs anywhere in the lower-cased path and "Biking" otherwise, whose
    "distance_m" is the 2D length, and whose six other statistics are null. *)
Theorem parse_gpx_record (path : string) (g : gpx_doc) (m : dict) (o : option (list point)) :
  parse_gpx path (GpxDoc g) = Ok (m, o) ->
  o = Some (map (fun p => (gpx_longitude p, gpx_latitude p)) (concat (concat (gpx_tracks g)))) /\
  map fst m = ["activityId"; "sport"; "start_time"; "duration_s"; "distance_m";
               "calories"; "avg_hr"; "max_hr"; "elevation_gain_m"; "avg_pace_s"] /\
  (exists t, gpx_start g = Ok t /\ dget "start_time" m = Some (JStr t)) /\
  dget "sport" m =
    Some (JStr (if str_contains "run" (py_lower path) then "Running" else "Biking")) /\
  dget "distance_m" m = Some (JNum (gpx_length_2d g)) /\
  Forall (fun k => dget k m = Some JNull)
    ["duration_s"; "calories"; "avg_hr"; "max_hr"; "elevation_gain_m"; "avg_pace_s"].
Proof.
  unfold parse_gpx. destruct (gpx_start g) as [t|e] eqn:E; cbn [bind]; [|discriminate].
  intro H. injection H as <- <-.
  split; [rewrite gpx_points_concat; reflexivity|].
  split; [reflexivity|]. split; [exists t; split; reflexivity|].
  split; [destruct (str_contains "run" (py_lower path)); reflexivity|].
  split; [reflexivity|]. repeat constructor.
Qed.

Lemma parse_gpx_record_witness :
  exists m o,
  parse_gpx "raw/Brunch_Ride.gpx" (GpxDoc (gpx_of [[[gpt 45 7 (Some "2024-05-01T07:00:00Z")]]])) =
    Ok (m, o) /\
  dget "sport" m = Some (JStr "Running").
Proof.
  destruct (parse_gpx "raw/Brunch_Ride.gpx"
              (GpxDoc (gpx_of [[[gpt 45 7 (Some "2024-05-01T07:00:00Z")]]]))) as [[m o]|e] eqn:E;
    [|vm_compute in E; discriminate E].
  exists m, o. split; [reflexivity|].
  destruct (parse_gpx_record _ _ m o E) as (_ & _ & _ & S & _). rewrite S. reflexivity.
Defined.

(** ** Witnesses of the properties above at concrete inputs *)

Lemma load_json_meta_keys_witness :
  exists m o,
  load_json_meta (JsonDoc (JObj [("id", JNum 1); ("sport", JStr "run"); ("id", JNum 2)])) =
    Ok (m, o) /\
  NoDup (map fst m) /\ dget "id" m = Some (JNum 2).
Proof.
  destruct (load_json_meta (JsonDoc (JObj [("id", JNum 1); ("sport", JStr "run"); ("id", JNum 2)])))
    as [[m o]|e] eqn:E; [|vm_compute in E; discriminate E].
  exists m, o. split; [reflexivity|].
  destruct (load_json_meta_keys _ m o E) as [N [_ G]]. split; [exact N|].
  rewrite G; [reflexivity|discriminate|simpl; intuition discriminate].
Defined.

Lemma load_json_meta_errors_witness :
  load_json_meta (JsonDoc (JObj [("sport", JNum 5)])) =
    Err "AttributeError: object has no attribute 'strip'" /\
  exists e, load_json_meta (JsonDoc (JArr [])) = Err e.
Proof.
  destruct load_json_meta_errors as [A B]. split.
  - apply (B _ (JNum 5)); [reflexivity|reflexivity|discriminate].
  - apply A. discriminate.
Defined.

Lemma parse_tcx_missing_coordinate_witness :
  exists e, parse_tcx "raw/a.tcx" (TcxDoc (doc_of [lap_with (Some (TInt 60)) (Some (TInt 100))
    None None None
    [tp_at 45 7 None;
     {| tp_time := true; tp_pos := Some {| pos_lat := None; pos_lon := Some (TInt 7) |};
        tp_alt := None; tp_hr := None; tp_cad := None |}]])) = Err e.
Proof.
  apply (parse_tcx_missing_coordinate _ _
    {| tp_time := true; tp_pos := Some {| pos_lat := None; pos_lon := Some (TInt 7) |};
       tp_alt := None; tp_hr := None; tp_cad := None |}
    {| pos_lat := None; pos_lon := Some (TInt 7) |}).
  - simpl. right; left; reflexivity.
  - reflexivity.
  - reflexivity.
  - left; reflexivity.
Defined.

Lemma parse_tcx_record_shape_witness :
  exists m o, parse_tcx "raw/run.tcx" (TcxDoc two_point_doc) = Ok (m, o) /\
  o = Some [(7, 45); (7, 46)] /\
  dget "start_time" m = Some (JStr "2024-05-01T07:00:00Z").
Proof.
  destruct (parse_tcx "raw/run.tcx" (TcxDoc two_point_doc)) as [[m o]|e] eqn:E;
    [|vm_compute in E; discriminate E].
  exists m, o. split; [reflexivity|].
  destruct (parse_tcx_record_shape _ _ m o E) as (O & _ & _ & _ & S).
  rewrite O, S. split; reflexivity.
Defined.

Lemma pre_parse_tcx_record_shape_witness :
  exists m coords, pre_parse_tcx "run" (TcxDoc two_point_doc) = Ok (m, coords) /\
  coords = [(7, 45); (7, 46)] /\
  dget "start_time" m = Some (JStr "2024-05-01T07:00:00Z").
Proof.
  destruct (pre_parse_tcx "run" (TcxDoc two_point_doc)) as [[m coords]|e] eqn:E;
    [|vm_compute in E; discriminate E].
  exists m, coords. split; [reflexivity|].
  destruct (pre_parse_tcx_record_shape _ _ m coords E) as (C & _ & _ & _ & S).
  rewrite C, S. split; reflexivity.
Defined.

Lemma pre_parse_tcx_no_laps_witness :
  pre_parse_tcx "empty" (TcxDoc (doc_of [])) =
    Ok ([("activityId", JStr "empty"); ("start_time", JNull); ("sport", JStr "Running");
         ("distance_m", JNum 0); ("duration_s", JNum 0); ("avg_hr", JNull);
         ("max_hr", JNull); ("avg_pace_s", JNull); ("elevation_gain_m", JNull);
         ("cadence", JNull); ("calories", JNum 0)], []).
Proof. apply (pre_parse_tcx_no_laps "empty" (doc_of [])). reflexivity. Defined.

Lemma parse_fit_start_time_witness :
  dget "start_time" (meta_of (parse_fit "raw/a.fit" false (FitDoc (fit_of
    [fit_dist_rec 100;
     {| rec_position_lat := None; rec_position_long := None;
        rec_timestamp := Some "2024-05-01T07:00:00+00:00";
        rec_distance := None; rec_heart_rate := None; rec_enhanced_altitude := None;
        rec_altitude := None; rec_cadence := None |}] None)))) =
  Some (JStr "2024-05-01T07:00:00+00:00").
Proof.
  rewrite parse_fit_start_time; [reflexivity|].
  intros r [<-|[<-|[]]]; discriminate.
Defined.

(** ** Trackpoints the TCX extractors ignore *)

Lemma mapM_map {A B C} (f : A -> result B) (g : C -> A) (l : list C) :
  mapM f (map g l) = mapM (fun x => f (g x)) l.
Proof. induction l as [|x l IH]; [reflexivity|]. cbn [map mapM]. rewrite IH. reflexivity. Qed.

Lemma foldM_filter_skip {S A} (f : S -> A -> result S) (p : A -> bool) (l : list A) :
  (forall s a, p a = false -> f s a = Ok s) ->
  forall s, foldM f s (filter p l) = foldM f s l.
Proof.
  intro H. induction l as [|a l IH]; intro s; [reflexivity|]. cbn [filter foldM].
  destruct (p a) eqn:Ep; cbn [foldM].
  - destruct (f s a); cbn [bind]; [apply IH|reflexivity].
  - rewrite H by exact Ep. cbn [bind]. apply IH.
Qed.

(** Trackpoints without a Position or without a Time play no part in
    normalise_strava's [parse_tcx]: dropping them from the document (from
    every lap and from the document-wide walk) leaves its result (record,
    coordinates or exception) unchanged. *)
Theorem parse_tcx_ignores_unused (path : string) (d : tcx_doc) :
  parse_tcx path (TcxDoc (tcx_map_tps (filter tcx_tp_used) d)) = parse_tcx path (TcxDoc d).
Proof.
  unfold parse_tcx. cbn [doc_activity doc_laps tcx_map_tps].
  rewrite !mapM_map, !map_map.
  cbn [lap_attr_time lap_attr_dist lap_cal lap_avg_hr lap_max_hr].
  assert (T : foldM tcx_tp_step ([], None, 0)
                (doc_trackpoints (tcx_map_tps (filter tcx_tp_used) d)) =
              foldM tcx_tp_step ([], None, 0) (doc_trackpoints d)).
  { cbn [tcx_map_tps doc_trackpoints].
    apply foldM_filter_skip.
    intros [[pts prev] g] tp. unfold tcx_tp_used, tcx_tp_step.
    destruct (tp_pos tp); [intro H; rewrite H|]; reflexivity. }
  rewrite T. destruct (doc_laps d); reflexivity.
Qed.

(** Trackpoints whose LatitudeDegrees or LongitudeDegrees text is missing
    or empty play no part in preprocess_tcx's [parse_tcx]: their heart
    rate, altitude and cadence are not sampled, and dropping them from every
    lap leaves its result unchanged. *)
Theorem pre_parse_tcx_ignores_unlocated (stem : string) (d : tcx_doc) :
  pre_parse_tcx stem (TcxDoc (tcx_map_tps (filter pre_located) d)) = pre_parse_tcx stem (TcxDoc d).
Proof.
  unfold pre_parse_tcx. cbn [doc_activity doc_laps tcx_map_tps].
  assert (F : forall laps s,
    foldM pre_lap_step s (map (fun l =>
      {| lap_start := lap_start l; lap_attr_time := lap_attr_time l;
         lap_attr_dist := lap_attr_dist l; lap_time := lap_time l; lap_dist := lap_dist l;
         lap_cal := lap_cal l; lap_avg_hr := lap_avg_hr l; lap_max_hr := lap_max_hr l;
         lap_tps := filter pre_located (lap_tps l) |}) laps) =
    foldM pre_lap_step s laps).
  { assert (L : forall l s, pre_lap_step s
        {| lap_start := lap_start l; lap_attr_time := lap_attr_time l;
           lap_attr_dist := lap_attr_dist l; lap_time := lap_time l; lap_dist := lap_dist l;
           lap_cal := lap_cal l; lap_avg_hr := lap_avg_hr l; lap_max_hr := lap_max_hr l;
           lap_tps := filter pre_located (lap_tps l) |} = pre_lap_step s l).
    { intros l s. unfold pre_lap_step. cbn [lap_start lap_dist lap_time lap_cal lap_tps].
      destruct (py_float _); cbn [bind]; [|reflexivity].
      destruct (py_float _); cbn [bind]; [|reflexivity].
      destruct (py_float _); cbn [bind]; [|reflexivity].
      apply foldM_filter_skip.
      intros s' tp. unfold pre_located, pre_tp_step.
      destruct (tp_lat tp) as [la|], (tp_lon tp) as [lo|]; cbn [opt_truthy];
        rewrite ?andb_false_r; try reflexivity.
      intro H. rewrite H. reflexivity. }
    induction laps as [|l laps IH]; intro s; [reflexivity|]. cbn [map foldM].
    rewrite L. destruct (pre_lap_step s l); cbn [bind]; [apply IH|reflexivity]. }
  rewrite F. reflexivity.
Qed.

Lemma parse_tcx_ignores_unused_witness :
  parse_tcx "raw/run.tcx" (TcxDoc (tcx_map_tps (filter tcx_tp_used)
    (doc_of [lap_with (Some (TInt 60)) (Some (TInt 100)) None None None
       [tp_at 45 7 None;
        {| tp_time := false; tp_pos := None; tp_alt := Some (TInt 500);
           tp_hr := Some (TInt 90); tp_cad := None |}]]))) =
  parse_tcx "raw/run.tcx" (TcxDoc
    (doc_of [lap_with (Some (TInt 60)) (Some (TInt 100)) None None None
       [tp_at 45 7 None;
        {| tp_time := false; tp_pos := None; tp_alt := Some (TInt 500);
           tp_hr := Some (TInt 90); tp_cad := None |}]])).
Proof. apply parse_tcx_ignores_unused. Defined.

(** [parse_tcx_structure_errors] on a document with no Activity, on an
    Activity with no Lap whose one Trackpoint (outside any Lap) has a
    Position without LatitudeDegrees, and on an Activity with no Lap and no
    Trackpoint. *)
Lemma parse_tcx_structure_errors_witness :
  parse_tcx "raw/a.tcx" (TcxDoc {| doc_activity := None; doc_laps := []; doc_trackpoints := [] |}) =
    Err "AttributeError: 'NoneType' object has no attribute 'get'" /\
  (exists e, parse_tcx "raw/a.tcx"
     (TcxDoc {| doc_activity := Some (Some "Running"); doc_laps := [];
                doc_trackpoints :=
                  [{| tp_time := true; tp_pos := Some {| pos_lat := None; pos_lon := Some (TInt 7) |};
                      tp_alt := None; tp_hr := None; tp_cad := None |}] |}) = Err e) /\
  parse_tcx "raw/a.tcx" (TcxDoc (doc_of [])) = Err "IndexError: list index out of range".
Proof.
  split; [|split].
  - apply (parse_tcx_structure_errors "raw/a.tcx"
             {| doc_activity := None; doc_laps := []; doc_trackpoints := [] |}).
    reflexivity.
  - apply (parse_tcx_structure_errors "raw/a.tcx"
     {| doc_activity := Some (Some "Running"); doc_laps := [];
        doc_trackpoints :=
          [{| tp_time := true; tp_pos := Some {| pos_lat := None; pos_lon := Some (TInt 7) |};
              tp_alt := None; tp_hr := None; tp_cad := None |}] |}).
    reflexivity.
  - apply (parse_tcx_structure_errors "raw/a.tcx" (doc_of [])); [discriminate|reflexivity|reflexivity].
Defined.

(** [parse_fit_keys] on a file of one distance-only record message. *)
Lemma parse_fit_keys_witness :
  exists m o, parse_fit "raw/a.fit" false (FitDoc (fit_of [fit_dist_rec 100] None)) = Ok (m, o) /\
  map fst m = ["activityId"; "sport"; "start_time"; "duration_s"; "distance_m";
               "calories"; "avg_hr"; "max_hr"; "elevation_gain_m"; "avg_pace_s"; "cadence"].
Proof.
  destruct (parse_fit "raw/a.fit" false (FitDoc (fit_of [fit_dist_rec 100] None))) as [[m o]|e] eqn:E;
    [|vm_compute in E; discriminate E].
  exists m, o. split; [reflexivity|].
  exact (proj1 (proj2 (parse_fit_keys "raw/a.fit" false (fit_of [fit_dist_rec 100] None) m o E))).
Defined.
